(** * Run controller of the analysis page (statics/script.js)

    A shallow embedding of the [DOMContentLoaded] closure of
    [statics/script.js]: its closure variables, the part of the DOM it reads
    and writes, and the browser facilities it calls (WebSocket, fetch,
    setTimeout, console).  Every JavaScript function of the closure is a
    monadic program over the page state; the browser's event loop is a
    function [step] that dispatches one event to the handler the script
    registered for it.

    Conventions.
    - Strings are sequences of code units below 256 (the Latin-1 range).
    - JavaScript numbers are IEEE-754 binary64 values: [float].
    - [innerHTML] templates are kept structured (icon class and text) instead
      of being rendered to markup; a message of the channel is the parsed
      frame, by its [type].  The texts of the frames are kept as characters
      and are not parsed as markup: where the script looks an element up by
      its id, what the markup of the displayed texts adds to the document
      comes with the event (see [Found]), and a document whose texts have no
      tag-open character has no such element.
    - An element created by [document.createElement] is a reference: an index
      into a store that only grows.  A WebSocket is a handle in the same way.
    - What the environment decides is an argument: the clock, the random
      digits of the session identifier, the order of events.
    - Left out, as no function reads them back: colours and scroll position,
      the focus and blur listeners of the location field, the inline style
      of a toast other than its transform. *)

From Stdlib Require Import Ascii String NArith Floats DecimalString Sorted.
From stdpp Require Import base option list strings.

Open Scope string_scope.
Open Scope nat_scope.
Open Scope list_scope.

(** ** Strings *)

(** WhiteSpace and LineTerminator code units of ECMAScript below 256. *)
Definition isWhiteSpace (c : ascii) : bool :=
  match nat_of_ascii c with
  | 9 | 10 | 11 | 12 | 13 | 32 | 160 => true
  | _ => false
  end.

Fixpoint trimStart (s : string) : string :=
  match s with
  | EmptyString => EmptyString
  | String c s' => if isWhiteSpace c then trimStart s' else s
  end.

Fixpoint trimEnd (s : string) : string :=
  match s with
  | EmptyString => EmptyString
  | String c s' =>
      match trimEnd s' with
      | EmptyString => if isWhiteSpace c then EmptyString else String c EmptyString
      | r => String c r
      end
  end.

(** [String.prototype.trim] *)
Definition trim (s : string) : string := trimEnd (trimStart s).

(** Lower-casing of one code unit of the Latin-1 range: A-Z, and the
    accented capitals 192-222 except the multiplication sign 215. *)
Definition lowerChar (c : ascii) : ascii :=
  let n := nat_of_ascii c in
  if (65 <=? n) && (n <=? 90) then ascii_of_nat (n + 32)
  else if (192 <=? n) && (n <=? 222) && negb (n =? 215) then ascii_of_nat (n + 32)
  else c.

(** [String.prototype.toLowerCase] *)
Fixpoint toLowerCase (s : string) : string :=
  match s with
  | EmptyString => EmptyString
  | String c s' => String (lowerChar c) (toLowerCase s')
  end.

(** Decimal rendering of a non-negative integer, as a template literal does. *)
Definition decimal (n : nat) : string := NilZero.string_of_uint (Nat.to_uint n).

(** ** Data model *)

(** [buttonMode]: 'analysis' or 'results'. *)
Inductive ButtonMode := analysis | results.

(** The two functions the script binds to the action button's click. *)
Inductive Listener := L_runAnalysis | L_showResults.

(** [<i class="fas fa-ICON"></i> TEXT] *)
Record Label := { icon : string; caption : string }.

(** One [input[name="analysis[]"]] element. *)
Record Checkbox := { cb_value : string; cb_checked : bool; cb_disabled : bool }.

(** A [div.progress-item] created by [showAnalysisProgress]. *)
Record ProgressItem :=
  { pi_className : string; pi_icon : string; pi_message : string; pi_timestamp : string }.

(** [#analysisProgressBar]: the fill's [style.width] in percent (unset until
    an update declares one) and the text [MESSAGE (CURRENT/TOTAL)]. *)
Record ProgressBar :=
  { fill_width : option float; text_content : option (string * float * float) }.

(** What [document.getElementById('analysisProgressBar')] finds: the bar the
    script created, or none ([own_bar]: the model holds which), or an element
    that the markup of a displayed text has put into the document ahead of
    it, with or without a descendant of class [progress-bar-fill] and one of
    class [progress-text]. *)
Inductive Found := own_bar | foreign_bar (has_fill has_text : bool).

(** A toast created by [showNotification]. *)
Record Notification :=
  { n_type : string; n_icon : string; n_background : string; n_message : string;
    n_transform : string; n_attached : bool }.

Inductive ReadyState := CONNECTING | OPEN | CLOSING | CLOSED.

(** A WebSocket object of the browser; a handle is its index in [sockets]. *)
Record Socket := { ws_url : string; readyState : ReadyState }.

(** The callbacks the script hands to [setTimeout]. *)
Inductive TimerCallback :=
  | T_connectWebSocket
  | T_selectAll_unscale
  | T_notification_in (n : nat)
  | T_notification_out (n : nat)
  | T_notification_remove (n : nat).

Record Timer := { delay : nat; callback : TimerCallback }.

(** The JSON body of the POST to /run-analysis. *)
Record Body := { location : string; analyses : list string; session_id : string }.

(** Calls that leave the page. *)
Inductive Call :=
  | WsNew (handle : nat) (url : string)
  | WsClose (handle : nat)
  | Fetch (path : string) (body : Body)
  | Navigate (href : string).

(** A message of the progress channel, by its [type] field. *)
Inductive Message :=
  | analysis_start (message : string)
  | progress_update (current total : float) (message : string)
  | analysis_complete (message : string)
  | analysis_error (message : string)
  | all_analyses_complete (message : string) (completed_analyses : list string)
  | error (message : string)
  | other_type (type : string).

Inductive ConsoleEntry :=
  | Log (text : string)
  | LogReceived (m : Message)
  | LogError (text : string).

Record JsError := { err_name : string; err_message : string }.

(** *** The page state *)

(** The [let] variables of the closure. *)
Record Vars :=
  { isAnalyzing : bool;
    allSelected : bool;
    websocket : option nat;
    sessionId : string;
    analysisResults : list string;
    buttonMode : ButtonMode;
    currentProgressItem : option nat }.

(** [locationInput], [checkboxes], [selectAllBtn]. *)
Record Form :=
  { location_value : string;
    location_disabled : bool;
    checkboxes : list Checkbox;
    selectAll_disabled : bool;
    selectAll_label : Label;
    selectAll_transform : string }.

(** [runAnalysisBtn] with its [.btn-text] and [.btn-loading] children. *)
Record ActionBtn :=
  { btn_disabled : bool;
    btn_title : string;
    btn_listeners : list Listener;
    btn_resultsReady : bool;
    btnText_label : Label;
    btnText_display : string;
    btnLoading_display : string }.

(** [statusMessage]. *)
Record Status := { status_label : Label; status_display : string; status_success : bool }.

(** The progress items ever created, the children of [#progressContainer]
    when it is in the document, and [#analysisProgressBar] when it is. *)
Record Progress :=
  { items : list ProgressItem;
    progressContainer : option (list nat);
    analysisProgressBar : option ProgressBar }.

(** The browser around the script. *)
Record Env :=
  { protocol : string;
    host : string;
    sockets : list Socket;
    timers : list Timer;
    pendingFetch : nat;
    pendingJson : nat;
    notifications : list Notification;
    calls : list Call;
    console : list ConsoleEntry;
    uncaught : list JsError }.

Record State :=
  { vars : Vars; form : Form; button : ActionBtn; status : Status;
    progress : Progress; env : Env }.

(** *** Field updates *)

Definition with_vars (f : Vars -> Vars) (s : State) : State :=
  {| vars := f (vars s); form := form s; button := button s; status := status s;
     progress := progress s; env := env s |}.
Definition with_form (f : Form -> Form) (s : State) : State :=
  {| vars := vars s; form := f (form s); button := button s; status := status s;
     progress := progress s; env := env s |}.
Definition with_button (f : ActionBtn -> ActionBtn) (s : State) : State :=
  {| vars := vars s; form := form s; button := f (button s); status := status s;
     progress := progress s; env := env s |}.
Definition with_status (f : Status -> Status) (s : State) : State :=
  {| vars := vars s; form := form s; button := button s; status := f (status s);
     progress := progress s; env := env s |}.
Definition with_progress (f : Progress -> Progress) (s : State) : State :=
  {| vars := vars s; form := form s; button := button s; status := status s;
     progress := f (progress s); env := env s |}.
Definition with_env (f : Env -> Env) (s : State) : State :=
  {| vars := vars s; form := form s; button := button s; status := status s;
     progress := progress s; env := f (env s) |}.

Definition set_isAnalyzing b (v : Vars) : Vars :=
  {| isAnalyzing := b; allSelected := allSelected v; websocket := websocket v;
     sessionId := sessionId v; analysisResults := analysisResults v;
     buttonMode := buttonMode v; currentProgressItem := currentProgressItem v |}.
Definition set_allSelected b (v : Vars) : Vars :=
  {| isAnalyzing := isAnalyzing v; allSelected := b; websocket := websocket v;
     sessionId := sessionId v; analysisResults := analysisResults v;
     buttonMode := buttonMode v; currentProgressItem := currentProgressItem v |}.
Definition set_websocket w (v : Vars) : Vars :=
  {| isAnalyzing := isAnalyzing v; allSelected := allSelected v; websocket := w;
     sessionId := sessionId v; analysisResults := analysisResults v;
     buttonMode := buttonMode v; currentProgressItem := currentProgressItem v |}.
Definition set_analysisResults r (v : Vars) : Vars :=
  {| isAnalyzing := isAnalyzing v; allSelected := allSelected v; websocket := websocket v;
     sessionId := sessionId v; analysisResults := r;
     buttonMode := buttonMode v; currentProgressItem := currentProgressItem v |}.
Definition set_buttonMode m (v : Vars) : Vars :=
  {| isAnalyzing := isAnalyzing v; allSelected := allSelected v; websocket := websocket v;
     sessionId := sessionId v; analysisResults := analysisResults v;
     buttonMode := m; currentProgressItem := currentProgressItem v |}.
Definition set_currentProgressItem p (v : Vars) : Vars :=
  {| isAnalyzing := isAnalyzing v; allSelected := allSelected v; websocket := websocket v;
     sessionId := sessionId v; analysisResults := analysisResults v;
     buttonMode := buttonMode v; currentProgressItem := p |}.

Definition set_location_value x (f : Form) : Form :=
  {| location_value := x; location_disabled := location_disabled f;
     checkboxes := checkboxes f; selectAll_disabled := selectAll_disabled f;
     selectAll_label := selectAll_label f; selectAll_transform := selectAll_transform f |}.
Definition set_location_disabled x (f : Form) : Form :=
  {| location_value := location_value f; location_disabled := x;
     checkboxes := checkboxes f; selectAll_disabled := selectAll_disabled f;
     selectAll_label := selectAll_label f; selectAll_transform := selectAll_transform f |}.
Definition set_checkboxes x (f : Form) : Form :=
  {| location_value := location_value f; location_disabled := location_disabled f;
     checkboxes := x; selectAll_disabled := selectAll_disabled f;
     selectAll_label := selectAll_label f; selectAll_transform := selectAll_transform f |}.
Definition set_selectAll_disabled x (f : Form) : Form :=
  {| location_value := location_value f; location_disabled := location_disabled f;
     checkboxes := checkboxes f; selectAll_disabled := x;
     selectAll_label := selectAll_label f; selectAll_transform := selectAll_transform f |}.
Definition set_selectAll_label x (f : Form) : Form :=
  {| location_value := location_value f; location_disabled := location_disabled f;
     checkboxes := checkboxes f; selectAll_disabled := selectAll_disabled f;
     selectAll_label := x; selectAll_transform := selectAll_transform f |}.
Definition set_selectAll_transform x (f : Form) : Form :=
  {| location_value := location_value f; location_disabled := location_disabled f;
     checkboxes := checkboxes f; selectAll_disabled := selectAll_disabled f;
     selectAll_label := selectAll_label f; selectAll_transform := x |}.

Definition set_btn_disabled x (b : ActionBtn) : ActionBtn :=
  {| btn_disabled := x; btn_title := btn_title b; btn_listeners := btn_listeners b;
     btn_resultsReady := btn_resultsReady b; btnText_label := btnText_label b;
     btnText_display := btnText_display b; btnLoading_display := btnLoading_display b |}.
Definition set_btn_title x (b : ActionBtn) : ActionBtn :=
  {| btn_disabled := btn_disabled b; btn_title := x; btn_listeners := btn_listeners b;
     btn_resultsReady := btn_resultsReady b; btnText_label := btnText_label b;
     btnText_display := btnText_display b; btnLoading_display := btnLoading_display b |}.
Definition set_btn_listeners x (b : ActionBtn) : ActionBtn :=
  {| btn_disabled := btn_disabled b; btn_title := btn_title b; btn_listeners := x;
     btn_resultsReady := btn_resultsReady b; btnText_label := btnText_label b;
     btnText_display := btnText_display b; btnLoading_display := btnLoading_display b |}.
Definition set_btn_resultsReady x (b : ActionBtn) : ActionBtn :=
  {| btn_disabled := btn_disabled b; btn_title := btn_title b; btn_listeners := btn_listeners b;
     btn_resultsReady := x; btnText_label := btnText_label b;
     btnText_display := btnText_display b; btnLoading_display := btnLoading_display b |}.
Definition set_btnText_label x (b : ActionBtn) : ActionBtn :=
  {| btn_disabled := btn_disabled b; btn_title := btn_title b; btn_listeners := btn_listeners b;
     btn_resultsReady := btn_resultsReady b; btnText_label := x;
     btnText_display := btnText_display b; btnLoading_display := btnLoading_display b |}.
Definition set_btnText_display x (b : ActionBtn) : ActionBtn :=
  {| btn_disabled := btn_disabled b; btn_title := btn_title b; btn_listeners := btn_listeners b;
     btn_resultsReady := btn_resultsReady b; btnText_label := btnText_label b;
     btnText_display := x; btnLoading_display := btnLoading_display b |}.
Definition set_btnLoading_display x (b : ActionBtn) : ActionBtn :=
  {| btn_disabled := btn_disabled b; btn_title := btn_title b; btn_listeners := btn_listeners b;
     btn_resultsReady := btn_resultsReady b; btnText_label := btnText_label b;
     btnText_display := btnText_display b; btnLoading_display := x |}.

Definition set_status_label x (t : Status) : Status :=
  {| status_label := x; status_display := status_display t; status_success := status_success t |}.
Definition set_status_display x (t : Status) : Status :=
  {| status_label := status_label t; status_display := x; status_success := status_success t |}.
Definition set_status_success x (t : Status) : Status :=
  {| status_label := status_label t; status_display := status_display t; status_success := x |}.

Definition set_items x (p : Progress) : Progress :=
  {| items := x; progressContainer := progressContainer p;
     analysisProgressBar := analysisProgressBar p |}.
Definition set_progressContainer x (p : Progress) : Progress :=
  {| items := items p; progressContainer := x;
     analysisProgressBar := analysisProgressBar p |}.
Definition set_analysisProgressBar x (p : Progress) : Progress :=
  {| items := items p; progressContainer := progressContainer p;
     analysisProgressBar := x |}.

Definition set_sockets x (e : Env) : Env :=
  {| protocol := protocol e; host := host e; sockets := x; timers := timers e;
     pendingFetch := pendingFetch e; pendingJson := pendingJson e;
     notifications := notifications e; calls := calls e; console := console e;
     uncaught := uncaught e |}.
Definition set_timers x (e : Env) : Env :=
  {| protocol := protocol e; host := host e; sockets := sockets e; timers := x;
     pendingFetch := pendingFetch e; pendingJson := pendingJson e;
     notifications := notifications e; calls := calls e; console := console e;
     uncaught := uncaught e |}.
Definition set_pendingFetch x (e : Env) : Env :=
  {| protocol := protocol e; host := host e; sockets := sockets e; timers := timers e;
     pendingFetch := x; pendingJson := pendingJson e;
     notifications := notifications e; calls := calls e; console := console e;
     uncaught := uncaught e |}.
Definition set_pendingJson x (e : Env) : Env :=
  {| protocol := protocol e; host := host e; sockets := sockets e; timers := timers e;
     pendingFetch := pendingFetch e; pendingJson := x;
     notifications := notifications e; calls := calls e; console := console e;
     uncaught := uncaught e |}.
Definition set_notifications x (e : Env) : Env :=
  {| protocol := protocol e; host := host e; sockets := sockets e; timers := timers e;
     pendingFetch := pendingFetch e; pendingJson := pendingJson e;
     notifications := x; calls := calls e; console := console e;
     uncaught := uncaught e |}.
Definition set_calls x (e : Env) : Env :=
  {| protocol := protocol e; host := host e; sockets := sockets e; timers := timers e;
     pendingFetch := pendingFetch e; pendingJson := pendingJson e;
     notifications := notifications e; calls := x; console := console e;
     uncaught := uncaught e |}.
Definition set_console x (e : Env) : Env :=
  {| protocol := protocol e; host := host e; sockets := sockets e; timers := timers e;
     pendingFetch := pendingFetch e; pendingJson := pendingJson e;
     notifications := notifications e; calls := calls e; console := x;
     uncaught := uncaught e |}.
Definition set_uncaught x (e : Env) : Env :=
  {| protocol := protocol e; host := host e; sockets := sockets e; timers := timers e;
     pendingFetch := pendingFetch e; pendingJson := pendingJson e;
     notifications := notifications e; calls := calls e; console := console e;
     uncaught := x |}.

(** ** The monad of handlers: state and JavaScript exceptions *)

Inductive Result (A : Type) :=
  | Done (a : A) (s : State)
  | Thrown (e : JsError) (s : State).
Arguments Done {A} a s.
Arguments Thrown {A} e s.

Definition M (A : Type) : Type := State -> Result A.

Definition ret {A} (a : A) : M A := fun s => Done a s.
Definition bind {A B} (m : M A) (k : A -> M B) : M B :=
  fun s => match m s with
           | Done a s' => k a s'
           | Thrown e s' => Thrown e s'
           end.
Definition throw {A} (e : JsError) : M A := fun s => Thrown e s.
Definition try_catch {A} (m : M A) (handler : JsError -> M A) : M A :=
  fun s => match m s with
           | Done a s' => Done a s'
           | Thrown e s' => handler e s'
           end.
Definition read {A} (f : State -> A) : M A := fun s => Done (f s) s.
Definition update (f : State -> State) : M unit := fun s => Done tt (f s).
Definition when (b : bool) (m : M unit) : M unit := if b then m else ret tt.

Declare Scope js_scope.
Delimit Scope js_scope with js.
Notation "'let*' x := m 'in' k" := (bind m (fun x => k))
  (at level 10, x name, m at level 100, k at level 200) : js_scope.
Notation "m ;; k" := (bind m (fun _ => k))
  (at level 100, k at level 200, right associativity) : js_scope.
Open Scope js_scope.

(** The state a handler leaves behind, whether it returned or threw. *)
Definition final {A} (r : Result A) : State :=
  match r with Done _ s => s | Thrown _ s => s end.

Definition returns {A} (r : Result A) : bool :=
  match r with Done _ _ => true | Thrown _ _ => false end.

(** ** Browser facilities *)

(** [console.log] and [console.error] *)
Definition console_log (text : string) : M unit :=
  update (with_env (fun e => set_console (console e ++ [Log text]) e)).
Definition console_error (text : string) : M unit :=
  update (with_env (fun e => set_console (console e ++ [LogError text]) e)).

(** [setTimeout(cb, ms)]: one more pending one-shot timer. *)
Definition setTimeout (cb : TimerCallback) (ms : nat) : M unit :=
  update (with_env (fun e => set_timers (timers e ++ [{| delay := ms; callback := cb |}]) e)).

(** [new WebSocket(url)]: a fresh socket, connecting. *)
Definition new_WebSocket (url : string) : M nat :=
  let* h := read (fun s => length (sockets (env s))) in
  update (with_env (fun e =>
    set_calls (calls e ++ [WsNew h url])
      (set_sockets (sockets e ++ [{| ws_url := url; readyState := CONNECTING |}]) e))) ;;
  ret h.

(** [WebSocket.prototype.close]: starts the closing handshake of a socket
    that is connecting or open, and does nothing to the others. *)
Definition closing (k : Socket) : Socket :=
  match readyState k with
  | CONNECTING | OPEN => {| ws_url := ws_url k; readyState := CLOSING |}
  | CLOSING | CLOSED => k
  end.

Definition ws_close (h : nat) : M unit :=
  update (with_env (fun e =>
    set_calls (calls e ++ [WsClose h]) (set_sockets (alter closing h (sockets e)) e))).

(** [fetch('/run-analysis', {method: 'POST', body})]: the request leaves and
    its promise is pending. *)
Definition fetch (path : string) (body : Body) : M unit :=
  update (with_env (fun e =>
    set_calls (calls e ++ [Fetch path body]) (set_pendingFetch (S (pendingFetch e)) e))).

(** [window.location.href = href] *)
Definition navigate (href : string) : M unit :=
  update (with_env (fun e => set_calls (calls e ++ [Navigate href]) e)).

(** ** The functions of the script *)

Definition getProgressIcon (type : string) : string :=
  if String.eqb type "success" then "check"
  else if String.eqb type "error" then "times"
  else if String.eqb type "info" then "spinner fa-spin"
  else "info-circle".

Definition getNotificationIcon (type : string) : string :=
  if String.eqb type "success" then "check-circle"
  else if String.eqb type "error" then "exclamation-circle"
  else if String.eqb type "warning" then "exclamation-triangle"
  else "info-circle".

Definition getNotificationColor (type : string) : string :=
  if String.eqb type "success" then "var(--success-color)"
  else if String.eqb type "error" then "var(--danger-color)"
  else if String.eqb type "warning" then "var(--warning-color)"
  else "var(--primary-color)".

Definition generateSessionId (now : N) (random36 : string) : string :=
  "session_" +:+ NilZero.string_of_uint (N.to_uint now) +:+ "_" +:+ random36.

Definition set_notification_transform (t : string) (n : Notification) : Notification :=
  {| n_type := n_type n; n_icon := n_icon n; n_background := n_background n;
     n_message := n_message n; n_transform := t; n_attached := n_attached n |}.

Definition detach_notification (n : Notification) : Notification :=
  {| n_type := n_type n; n_icon := n_icon n; n_background := n_background n;
     n_message := n_message n; n_transform := n_transform n; n_attached := false |}.

Definition showNotification (message type : string) : M unit :=
  let notification :=
    {| n_type := type; n_icon := getNotificationIcon type;
       n_background := getNotificationColor type; n_message := message;
       n_transform := "translateX(100%)"; n_attached := true |} in
  let* n := read (fun s => length (notifications (env s))) in
  update (with_env (fun e => set_notifications (notifications e ++ [notification]) e)) ;;
  setTimeout (T_notification_in n) 10 ;;
  setTimeout (T_notification_out n) 4000.

Definition connectWebSocket : M unit :=
  let* protocol := read (fun s =>
    if String.eqb (protocol (env s)) "https:" then "wss:" else "ws:") in
  console_log ("Connecting to WebSocket at protocol: " +:+ protocol) ;;
  let* wsUrl := read (fun s =>
    protocol +:+ "//" +:+ host (env s) +:+ "/ws/" +:+ sessionId (vars s)) in
  let* h := new_WebSocket wsUrl in
  update (with_vars (set_websocket (Some h))).

(** [websocket.onclose] *)
Definition onclose : M unit :=
  console_log "WebSocket disconnected" ;;
  let* analyzing := read (fun s => isAnalyzing (vars s)) in
  when analyzing (setTimeout T_connectWebSocket 2000).

Definition createProgressContainer : M unit :=
  update (with_progress (set_progressContainer (Some []))).

Definition showAnalysisProgress (message type now : string) : M nat :=
  let* existing := read (fun s => progressContainer (progress s)) in
  match existing with Some _ => ret tt | None => createProgressContainer end ;;
  let progressItem :=
    {| pi_className := "progress-item progress-" +:+ type;
       pi_icon := getProgressIcon type; pi_message := message; pi_timestamp := now |} in
  let* ref := read (fun s => length (items (progress s))) in
  update (with_progress (fun p => set_items (items p ++ [progressItem]) p)) ;;
  update (with_progress (fun p =>
    set_progressContainer (Some (default [] (progressContainer p) ++ [ref])) p)) ;;
  ret ref.

Definition rewrite_item (message now : string) (it : ProgressItem) : ProgressItem :=
  {| pi_className := pi_className it; pi_icon := getProgressIcon "success";
     pi_message := message; pi_timestamp := now |}.

Definition markProgressAsCompleted (message : string) (progressItem : option nat)
    (now : string) : M unit :=
  match progressItem with
  | None =>
      throw {| err_name := "TypeError";
               err_message := "Cannot set properties of undefined (setting 'innerHTML')" |}
  | Some ref =>
      update (with_progress (fun p => set_items (alter (rewrite_item message now) ref (items p)) p))
  end.

Definition percentage (current total : float) : float := ((current / total) * 100)%float.

(** The [width] setter of a [style]: the text [NUMBER%] is a declaration of
    [width] when the number is finite and not negative, and is dropped when
    it is negative, [NaN] or [Infinity], leaving the declared width as it
    was.  The number is read back from its decimal rendering, which is [0]
    for the negative zero. *)
Definition css_percentage (p : float) : bool :=
  ((0 <=? p) && (p <? infinity))%float.

Definition set_style_width (p : float) (declared : option float) : option float :=
  if css_percentage p then Some (abs p) else declared.

(** The texts the script has put into the document through [innerHTML]: the
    message and the time of every entry of the log, and the message of every
    toast that is still attached. *)
Definition displayed_texts (s : State) : list string :=
  match progressContainer (progress s) with
  | Some refs =>
      flat_map (fun ref => match items (progress s) !! ref with
                           | Some it => [pi_message it; pi_timestamp it]
                           | None => []
                           end) refs
  | None => []
  end ++
  map n_message (List.filter n_attached (notifications (env s))).

(** A text without the tag-open character is text to the parser of
    [innerHTML] and adds no element to the document. *)
Definition has_markup (text : string) : bool :=
  existsb (Ascii.eqb "<") (list_ascii_of_string text).

(** [document.getElementById('analysisProgressBar')] with regard to the
    elements the script did not create: in a document whose texts carry no
    markup there is none, and otherwise the parser of the browser has
    decided, which the event reports. *)
Definition getElementById_analysisProgressBar (found : Found) : M Found :=
  read (fun s => if existsb has_markup (displayed_texts s) then found else own_bar).

Definition updateProgressBar (found : Found) (current total : float) (message : string)
    : M unit :=
  let* progressBar := getElementById_analysisProgressBar found in
  match progressBar with
  | foreign_bar has_fill has_text =>
      if negb has_fill
      then throw {| err_name := "TypeError";
                    err_message := "Cannot read properties of null (reading 'style')" |}
      else if negb has_text
      then throw {| err_name := "TypeError";
                    err_message := "Cannot set properties of null (setting 'textContent')" |}
      else ret tt
  | own_bar =>
      let* existing := read (fun s => analysisProgressBar (progress s)) in
      match existing with
      | Some _ => ret tt
      | None =>
          update (with_progress
            (set_analysisProgressBar (Some {| fill_width := None; text_content := None |})))
      end ;;
      let* fill := read (fun s => match analysisProgressBar (progress s) with
                                  | Some bar => fill_width bar
                                  | None => None
                                  end) in
      update (with_progress
        (set_analysisProgressBar
           (Some {| fill_width := set_style_width (percentage current total) fill;
                    text_content := Some (message, current, total) |})))
  end.

Definition updateSelectAllButton : M unit :=
  let* checkedCount := read (fun s => length (List.filter cb_checked (checkboxes (form s)))) in
  let* totalCount := read (fun s => length (checkboxes (form s))) in
  let all := checkedCount =? totalCount in
  update (with_vars (set_allSelected all)) ;;
  if all
  then update (with_form (set_selectAll_label {| icon := "check-double"; caption := "Deselect All" |}))
  else update (with_form (set_selectAll_label {| icon := "check-double"; caption := "Select All" |})).

Definition updateRunAnalysisButton : M unit :=
  let* analyzing := read (fun s => isAnalyzing (vars s)) in
  if analyzing then ret tt else
  let* hasLocation := read (fun s => 0 <? String.length (trim (location_value (form s)))) in
  let* hasSelectedAnalysis := read (fun s => existsb cb_checked (checkboxes (form s))) in
  let canRun := hasLocation && hasSelectedAnalysis in
  update (with_button (set_btn_disabled (negb canRun))) ;;
  if negb hasLocation && negb hasSelectedAnalysis
  then update (with_button (set_btn_title
         "Please enter a location and select at least one analysis option"))
  else if negb hasLocation
  then update (with_button (set_btn_title "Please enter a location"))
  else if negb hasSelectedAnalysis
  then update (with_button (set_btn_title "Please select at least one analysis option"))
  else update (with_button (set_btn_title "")).

Definition set_cb_checked (b : bool) (cb : Checkbox) : Checkbox :=
  {| cb_value := cb_value cb; cb_checked := b; cb_disabled := cb_disabled cb |}.
Definition set_cb_disabled (b : bool) (cb : Checkbox) : Checkbox :=
  {| cb_value := cb_value cb; cb_checked := cb_checked cb; cb_disabled := b |}.

Definition toggleSelectAll : M unit :=
  let* analyzing := read (fun s => isAnalyzing (vars s)) in
  if analyzing then ret tt else
  update (with_vars (fun v => set_allSelected (negb (allSelected v)) v)) ;;
  let* all := read (fun s => allSelected (vars s)) in
  update (with_form (fun f => set_checkboxes (map (set_cb_checked all) (checkboxes f)) f)) ;;
  updateSelectAllButton ;;
  updateRunAnalysisButton ;;
  update (with_form (set_selectAll_transform "scale(0.95)")) ;;
  setTimeout T_selectAll_unscale 150.

(** [addEventListener] and [removeEventListener] of the action button: a
    listener is registered at most once. *)
Definition listener_eqb (a b : Listener) : bool :=
  match a, b with
  | L_runAnalysis, L_runAnalysis | L_showResults, L_showResults => true
  | _, _ => false
  end.
Definition addEventListener (l : Listener) (ls : list Listener) : list Listener :=
  if existsb (listener_eqb l) ls then ls else ls ++ [l].
Definition removeEventListener (l : Listener) (ls : list Listener) : list Listener :=
  List.filter (fun x => negb (listener_eqb l x)) ls.

(** The three statements that re-enable the form, shared by
    [handleAnalysisComplete] and [resetForm]. *)
Definition enable_form (f : Form) : Form :=
  set_checkboxes (map (set_cb_disabled false) (checkboxes f))
    (set_selectAll_disabled false (set_location_disabled false f)).
Definition disable_form (f : Form) : Form :=
  set_checkboxes (map (set_cb_disabled true) (checkboxes f))
    (set_selectAll_disabled true (set_location_disabled true f)).

Definition resetForm : M unit :=
  update (with_vars (set_isAnalyzing false)) ;;
  update (with_vars (set_buttonMode analysis)) ;;
  let* ws := read (fun s => websocket (vars s)) in
  match ws with
  | Some h =>
      ws_close h ;;
      update (with_vars (set_websocket None)) ;;
      console_log "WebSocket closed during form reset"
  | None => ret tt
  end ;;
  update (with_button (set_btnText_label {| icon := "play"; caption := "Run Analysis" |})) ;;
  update (with_button (set_btnText_display "flex")) ;;
  update (with_button (set_btnLoading_display "none")) ;;
  update (with_button (fun b => set_btn_listeners (removeEventListener L_showResults (btn_listeners b)) b)) ;;
  update (with_button (fun b => set_btn_listeners (addEventListener L_runAnalysis (btn_listeners b)) b)) ;;
  update (with_button (set_btn_disabled false)) ;;
  update (with_button (set_btn_resultsReady false)) ;;
  update (with_status (set_status_display "none")) ;;
  update (with_status (set_status_success false)) ;;
  update (with_form enable_form) ;;
  update (with_progress (set_progressContainer None)) ;;
  update (with_progress (set_analysisProgressBar None)) ;;
  updateRunAnalysisButton.

Definition handleAnalysisComplete (message : string) (completed_analyses : list string)
    : M unit :=
  update (with_vars (set_isAnalyzing false)) ;;
  update (with_vars (set_analysisResults completed_analyses)) ;;
  update (with_vars (set_buttonMode results)) ;;
  let* ws := read (fun s => websocket (vars s)) in
  match ws with
  | Some h =>
      ws_close h ;;
      update (with_vars (set_websocket None)) ;;
      console_log "WebSocket closed after analysis completion"
  | None => ret tt
  end ;;
  update (with_button (set_btnText_display "flex")) ;;
  update (with_button (set_btnLoading_display "none")) ;;
  update (with_button (set_btnText_label {| icon := "chart-bar"; caption := "View Results" |})) ;;
  update (with_button (fun b => set_btn_listeners (removeEventListener L_runAnalysis (btn_listeners b)) b)) ;;
  update (with_button (fun b => set_btn_listeners (addEventListener L_showResults (btn_listeners b)) b)) ;;
  update (with_button (set_btn_disabled false)) ;;
  update (with_button (set_btn_resultsReady true)) ;;
  update (with_status (set_status_label
    {| icon := "check-circle";
       caption := "Analysis complete! " +:+ decimal (length completed_analyses)
                  +:+ " results ready to view." |})) ;;
  update (with_status (set_status_success true)) ;;
  update (with_status (set_status_display "flex")) ;;
  update (with_form enable_form) ;;
  showNotification message "success".

Definition handleWebSocketMessage (message : Message) (now : string) (found : Found)
    : M unit :=
  update (with_env (fun e => set_console (console e ++ [LogReceived message]) e)) ;;
  match message with
  | analysis_start text =>
      let* item := showAnalysisProgress text "info" now in
      update (with_vars (set_currentProgressItem (Some item)))
  | progress_update current total text => updateProgressBar found current total text
  | analysis_complete text =>
      let* item := read (fun s => currentProgressItem (vars s)) in
      markProgressAsCompleted text item now
  | analysis_error text => showAnalysisProgress text "error" now ;; ret tt
  | all_analyses_complete text completed => handleAnalysisComplete text completed
  | error text => showNotification text "error" ;; resetForm
  | other_type _ => ret tt
  end.

(** The [catch] clause of [startAnalysis]. *)
Definition startAnalysis_catch (e : JsError) : M unit :=
  console_error ("Error starting analysis: " +:+ err_message e) ;;
  showNotification ("Error starting analysis: " +:+ err_message e) "error" ;;
  resetForm.

(** [startAnalysis] up to its first [await]. *)
Definition startAnalysis (selectedAnalysis : list string) : M unit :=
  try_catch
    (update (with_vars (set_isAnalyzing true)) ;;
     connectWebSocket ;;
     update (with_button (set_btnText_display "none")) ;;
     update (with_button (set_btnLoading_display "flex")) ;;
     update (with_button (set_btn_disabled true)) ;;
     update (with_button (set_btn_resultsReady false)) ;;
     update (with_status (set_status_label
       {| icon := "clock"; caption := "The analysis may take a while. Hold tight..." |})) ;;
     update (with_status (set_status_success false)) ;;
     update (with_status (set_status_display "flex")) ;;
     update (with_form disable_form) ;;
     update (with_progress (set_progressContainer None)) ;;
     update (with_progress (set_analysisProgressBar None)) ;;
     let* body := read (fun s =>
       {| location := trim (location_value (form s));
          analyses := selectedAnalysis;
          session_id := sessionId (vars s) |}) in
     fetch "/run-analysis" body)
    startAnalysis_catch.

(** What the promise of [fetch] settles to, and the promise of
    [response.json()]. *)
Inductive FetchOutcome := Rejected (e : JsError) | Response (status : nat).
Inductive JsonOutcome := JsonError (e : JsError) | Json (text : string).

(** [response.ok] *)
Definition ok (status : nat) : bool := (200 <=? status) && (status <=? 299).

(** [startAnalysis] from [await fetch(...)] to [await response.json()]. *)
Definition startAnalysis_response (r : FetchOutcome) : M unit :=
  try_catch
    (match r with
     | Rejected e => throw e
     | Response status =>
         if negb (ok status)
         then throw {| err_name := "Error";
                       err_message := "HTTP error! status: " +:+ decimal status |}
         else update (with_env (fun e => set_pendingJson (S (pendingJson e)) e))
     end)
    startAnalysis_catch.

(** [startAnalysis] after [await response.json()]. *)
Definition startAnalysis_json (r : JsonOutcome) : M unit :=
  try_catch
    (match r with
     | JsonError e => throw e
     | Json text => console_log ("Analysis started: " +:+ text)
     end)
    startAnalysis_catch.

(** [buttonMode === 'results'] *)
Definition is_results (m : ButtonMode) : bool :=
  match m with results => true | analysis => false end.

Definition runAnalysis : M unit :=
  let* s0 := read (fun s => s) in
  if isAnalyzing (vars s0) || is_results (buttonMode (vars s0)) then ret tt else
  let location := trim (location_value (form s0)) in
  let selectedAnalysis := map cb_value (List.filter cb_checked (checkboxes (form s0))) in
  if String.eqb location "" || (length selectedAnalysis =? 0)
  then showNotification "Please enter a location and select at least one analysis option" "error"
  else
    when (negb (String.eqb (toLowerCase location) "narayanganj"))
      (showNotification "Currently, only Narayanganj is supported as a location" "warning" ;;
       update (with_form (set_location_value "Narayanganj"))) ;;
    startAnalysis selectedAnalysis.

Definition showResults : M unit :=
  let* sid := read (fun s => sessionId (vars s)) in
  console_log ("Redirecting to results viewer with session ID: " +:+ sid) ;;
  navigate ("/results-viewer?session=" +:+ sid).

(** ** The event loop *)

(** What the browser can deliver to the page.  [Ws_message] carries the
    parsed frame, the reading of the clock ([toLocaleTimeString]) at the
    time it is handled, and what the document then holds under the id of the
    progress bar; [Timer_fire i] fires the [i]-th pending timer. *)
Inductive Event :=
  | Click_runAnalysisBtn
  | Click_selectAllBtn
  | Input_location (value : string)
  | Change_checkbox (i : nat)
  | Key_ctrlEnter
  | Key_ctrlA (locationFocused : bool)
  | Ws_open (h : nat)
  | Ws_message (h : nat) (m : Message) (now : string) (found : Found)
  | Ws_error (h : nat)
  | Ws_close (h : nat)
  | Timer_fire (i : nat)
  | Fetch_settled (r : FetchOutcome)
  | Json_settled (r : JsonOutcome).

Definition run_listener (l : Listener) : M unit :=
  match l with
  | L_runAnalysis => runAnalysis
  | L_showResults => showResults
  end.

Fixpoint run_listeners (ls : list Listener) : M unit :=
  match ls with
  | [] => ret tt
  | l :: ls' => run_listener l ;; run_listeners ls'
  end.

Definition set_readyState (r : ReadyState) (k : Socket) : Socket :=
  {| ws_url := ws_url k; readyState := r |}.

Definition readyState_of (s : State) (h : nat) : option ReadyState :=
  readyState <$> sockets (env s) !! h.

Definition is_open (s : State) (h : nat) : bool :=
  match readyState_of s h with Some OPEN => true | _ => false end.

Definition run_timer (cb : TimerCallback) : M unit :=
  match cb with
  | T_connectWebSocket => connectWebSocket
  | T_selectAll_unscale => update (with_form (set_selectAll_transform "scale(1)"))
  | T_notification_in n =>
      update (with_env (fun e => set_notifications
        (alter (set_notification_transform "translateX(0)") n (notifications e)) e))
  | T_notification_out n =>
      update (with_env (fun e => set_notifications
        (alter (set_notification_transform "translateX(100%)") n (notifications e)) e)) ;;
      setTimeout (T_notification_remove n) 300
  | T_notification_remove n =>
      update (with_env (fun e => set_notifications
        (alter detach_notification n (notifications e)) e))
  end.

Definition toggle_checked (cb : Checkbox) : Checkbox := set_cb_checked (negb (cb_checked cb)) cb.

(** The handler the script registered for each event.  The browser delivers
    a click only to an enabled button, input only to an enabled control, a
    message only on an open socket, one close per socket, and a settlement
    only to a pending promise. *)
Definition dispatch (ev : Event) : M unit :=
  let* s := read (fun s => s) in
  match ev with
  | Click_runAnalysisBtn =>
      if btn_disabled (button s) then ret tt else run_listeners (btn_listeners (button s))
  | Click_selectAllBtn =>
      if selectAll_disabled (form s) then ret tt else toggleSelectAll
  | Input_location value =>
      if location_disabled (form s) then ret tt else
      update (with_form (set_location_value value)) ;; updateRunAnalysisButton
  | Change_checkbox i =>
      match checkboxes (form s) !! i with
      | Some cb =>
          if cb_disabled cb then ret tt else
          update (with_form (fun f => set_checkboxes (alter toggle_checked i (checkboxes f)) f)) ;;
          updateSelectAllButton ;;
          updateRunAnalysisButton
      | None => ret tt
      end
  | Key_ctrlEnter =>
      when (negb (btn_disabled (button s)) && negb (isAnalyzing (vars s)))
        (if is_results (buttonMode (vars s)) then showResults else runAnalysis)
  | Key_ctrlA locationFocused =>
      when (negb locationFocused) (when (negb (isAnalyzing (vars s))) toggleSelectAll)
  | Ws_open h =>
      match readyState_of s h with
      | Some CONNECTING =>
          update (with_env (fun e => set_sockets (alter (set_readyState OPEN) h (sockets e)) e)) ;;
          console_log "WebSocket connected"
      | _ => ret tt
      end
  | Ws_message h m now found =>
      if is_open s h then handleWebSocketMessage m now found else ret tt
  | Ws_error h =>
      match readyState_of s h with
      | Some CLOSED | None => ret tt
      | Some _ => console_error "WebSocket error"
      end
  | Ws_close h =>
      match readyState_of s h with
      | Some CLOSED | None => ret tt
      | Some _ =>
          update (with_env (fun e => set_sockets (alter (set_readyState CLOSED) h (sockets e)) e)) ;;
          onclose
      end
  | Timer_fire i =>
      match timers (env s) !! i with
      | Some t =>
          update (with_env (fun e => set_timers (delete i (timers e)) e)) ;;
          run_timer (callback t)
      | None => ret tt
      end
  | Fetch_settled r =>
      match pendingFetch (env s) with
      | S n =>
          update (with_env (set_pendingFetch n)) ;;
          startAnalysis_response r
      | O => ret tt
      end
  | Json_settled r =>
      match pendingJson (env s) with
      | S n =>
          update (with_env (set_pendingJson n)) ;;
          startAnalysis_json r
      | O => ret tt
      end
  end.

(** One turn of the event loop: an exception that escapes the handler is
    reported and the turn ends with the state the handler left. *)
Definition step (s : State) (ev : Event) : State :=
  match dispatch ev s with
  | Done _ s' => s'
  | Thrown e s' => with_env (fun e' => set_uncaught (uncaught e' ++ [e]) e') s'
  end.

Definition run (s : State) (evs : list Event) : State := fold_left step evs s.

(** *** Page load *)

(** The body of the [DOMContentLoaded] listener: the closure variables, the
    two initial updates of the buttons, the default location and the click
    listener.  [form0], [button0] and [status0] are the elements as the
    markup declares them; [now] and [random36] are what [Date.now()] and the
    nine base-36 digits of [Math.random()] give. *)
Definition init (protocol0 host0 : string) (form0 : Form) (button0 : ActionBtn)
    (status0 : Status) (now : N) (random36 : string) : State :=
  let loaded :=
    {| vars := {| isAnalyzing := false; allSelected := false; websocket := None;
                  sessionId := generateSessionId now random36; analysisResults := [];
                  buttonMode := analysis; currentProgressItem := None |};
       form := form0; button := button0; status := status0;
       progress := {| items := []; progressContainer := None; analysisProgressBar := None |};
       env := {| protocol := protocol0; host := host0; sockets := []; timers := [];
                 pendingFetch := 0; pendingJson := 0; notifications := []; calls := [];
                 console := []; uncaught := [] |} |} in
  final ((updateSelectAllButton ;;
          updateRunAnalysisButton ;;
          update (with_form (set_location_value "Narayanganj")) ;;
          update (with_button (fun b =>
            set_btn_listeners (addEventListener L_runAnalysis (btn_listeners b)) b)))
         loaded).

(** The states the page can be in. *)
Inductive reachable : State -> Prop :=
  | reachable_init protocol0 host0 form0 button0 status0 now random36 :
      btn_listeners button0 = [] ->
      reachable (init protocol0 host0 form0 button0 status0 now random36)
  | reachable_step s ev : reachable s -> reachable (step s ev).

(** *** The controller's states *)

Inductive Lifecycle := Idle | Running | ResultsReady.

(** [Submitting] and [Running] are one state of the script: [isAnalyzing]. *)
Definition lifecycle (s : State) : Lifecycle :=
  if isAnalyzing (vars s) then Running
  else if is_results (buttonMode (vars s)) then ResultsReady
  else Idle.

(** * Specification vocabulary *)

(** [m], started in [s], ends (by return or by throw) in a state that [R]
    relates to [s]. *)
Definition keeps (R : State -> State -> Prop) {A} (m : M A) (s : State) : Prop :=
  R s (final (m s)).

(** ** The session a call belongs to *)

Definition scheme (s : State) : string :=
  if String.eqb (protocol (env s)) "https:" then "wss:" else "ws:".

(** The address [connectWebSocket] computes in state [s]. *)
Definition wsUrl (s : State) : string :=
  scheme s +:+ "//" +:+ host (env s) +:+ "/ws/" +:+ sessionId (vars s).

(** A call carries the session identifier of [s]. *)
Definition tagged (s : State) (c : Call) : Prop :=
  match c with
  | WsNew _ url => url = wsUrl s
  | WsClose _ => True
  | Fetch _ body => session_id body = sessionId (vars s)
  | Navigate href => href = "/results-viewer?session=" +:+ sessionId (vars s)
  end.

Definition same_session (s s' : State) : Prop :=
  sessionId (vars s') = sessionId (vars s) /\ protocol (env s') = protocol (env s)
  /\ host (env s') = host (env s).

(** ** The invariant of the page *)

(** The console shows that a run-started message was handled. *)
Definition is_start (c : ConsoleEntry) : bool :=
  match c with LogReceived (analysis_start _) => true | _ => false end.

(** A variable that is not [undefined] (or [null]). *)
Definition defined {A} (o : option A) : bool :=
  match o with Some _ => true | None => false end.

Record Inv (s : State) : Prop :=
  { inv_calls : Forall (tagged s) (calls (env s));
    inv_sockets : Forall (fun k => ws_url k = wsUrl s) (sockets (env s));
    inv_websocket : forall h, websocket (vars s) = Some h -> h < length (sockets (env s));
    inv_children : forall refs, progressContainer (progress s) = Some refs ->
      Forall (fun r => r < length (items (progress s))) refs /\ StronglySorted lt refs;
    inv_current : forall r, currentProgressItem (vars s) = Some r ->
      r < length (items (progress s));
    inv_started : existsb is_start (console (env s)) = defined (currentProgressItem (vars s)) }.

(** Each statement keeps the session and the invariant. *)
Definition Rinv (s s' : State) : Prop := same_session s s' /\ (Inv s -> Inv s').

(** ** A page to evaluate the script on *)

Definition demo_checkbox (value : string) : Checkbox :=
  {| cb_value := value; cb_checked := false; cb_disabled := false |}.

Definition demo_form : Form :=
  {| location_value := ""; location_disabled := false;
     checkboxes := [demo_checkbox "flood"; demo_checkbox "heat"];
     selectAll_disabled := false;
     selectAll_label := {| icon := "check-double"; caption := "Select All" |};
     selectAll_transform := "" |}.

Definition demo_button : ActionBtn :=
  {| btn_disabled := false; btn_title := ""; btn_listeners := [];
     btn_resultsReady := false;
     btnText_label := {| icon := "play"; caption := "Run Analysis" |};
     btnText_display := "flex"; btnLoading_display := "none" |}.

Definition demo_status : Status :=
  {| status_label := {| icon := ""; caption := "" |}; status_display := "none";
     status_success := false |}.

(** The page just loaded from http://localhost:8000. *)
Definition demo_page : State :=
  Eval vm_compute in
    init "http:" "localhost:8000" demo_form demo_button demo_status
         1700000000000%N "k3j9x0q1z".

(** The first analysis kind is ticked and the action button clicked. *)
Definition demo_running : State :=
  Eval vm_compute in run demo_page [Change_checkbox 0; Click_runAnalysisBtn].

(** ** Vocabulary of the claims *)

(** The toast [runAnalysis] shows when the form is incomplete. *)
Definition validation_notification : Notification :=
  {| n_type := "error"; n_icon := "exclamation-circle";
     n_background := "var(--danger-color)";
     n_message := "Please enter a location and select at least one analysis option";
     n_transform := "translateX(100%)"; n_attached := true |}.

(** No analysis kind is selected. *)
Definition none_selected (s : State) : Prop :=
  Forall (fun cb => cb_checked cb = false) (checkboxes (form s)).

(** At least one analysis kind is selected. *)
Definition some_selected (s : State) : Prop :=
  Exists (fun cb => cb_checked cb = true) (checkboxes (form s)).

(** The values of the ticked boxes, in document order. *)
Definition selected_kinds (s : State) : list string :=
  map cb_value (List.filter cb_checked (checkboxes (form s))).

(** The toast [runAnalysis] shows when it replaces the location. *)
Definition unsupported_location_notification : Notification :=
  {| n_type := "warning"; n_icon := "exclamation-triangle";
     n_background := "var(--warning-color)";
     n_message := "Currently, only Narayanganj is supported as a location";
     n_transform := "translateX(100%)"; n_attached := true |}.

(** [canRun] of [updateRunAnalysisButton]: the form is complete. *)
Definition canRun (s : State) : bool :=
  (0 <? String.length (trim (location_value (form s))))
  && existsb cb_checked (checkboxes (form s)).

(** The controller is Idle and the page can start a run: no socket is held,
    the location field, the select-all button and every checkbox are
    enabled, the action button submits and is enabled exactly when the form
    is complete, and the progress log and bar are gone. *)
Record usable_Idle (s : State) : Prop :=
  { idle_lifecycle : lifecycle s = Idle;
    idle_websocket : websocket (vars s) = None;
    idle_location : location_disabled (form s) = false;
    idle_selectAll : selectAll_disabled (form s) = false;
    idle_checkboxes : Forall (fun cb => cb_disabled cb = false) (checkboxes (form s));
    idle_button : btn_disabled (button s) = negb (canRun s);
    idle_submit : In L_runAnalysis (btn_listeners (button s));
    idle_no_navigate : ~ In L_showResults (btn_listeners (button s));
    idle_log : progressContainer (progress s) = None;
    idle_bar : analysisProgressBar (progress s) = None }.

(** The reason a settled [fetch] is a failure, as [startAnalysis] words it:
    the message of the rejection, or the status of a response that is not
    2xx. *)
Definition failure_reason (r : FetchOutcome) : option string :=
  match r with
  | Rejected e => Some (err_message e)
  | Response status =>
      if ok status then None else Some ("HTTP error! status: " +:+ decimal status)
  end.

Definition error_notification (message : string) : Notification :=
  {| n_type := "error"; n_icon := "exclamation-circle";
     n_background := "var(--danger-color)"; n_message := message;
     n_transform := "translateX(100%)"; n_attached := true |}.

(** The [close()] calls a reset makes: one, on the socket it holds. *)
Definition close_held (s : State) : list Call :=
  match websocket (vars s) with Some h => [WsClose h] | None => [] end.

(** The timer [websocket.onclose] schedules. *)
Definition reconnect_timer : Timer := {| delay := 2000; callback := T_connectWebSocket |}.

(** The browser has closed socket [h]. *)
Definition closed (h : nat) (s : State) : State :=
  with_env (fun e => set_sockets (alter (set_readyState CLOSED) h (sockets e)) e) s.

(** One more line on the console. *)
Definition logged (text : string) (s : State) : State :=
  with_env (fun e => set_console (console e ++ [Log text]) e) s.

(** One more pending timer. *)
Definition scheduled (t : Timer) (s : State) : State :=
  with_env (fun e => set_timers (timers e ++ [t]) e) s.

(** The demo run with its socket open. *)
Definition demo_connected : State := Eval vm_compute in step demo_running (Ws_open 0).

(** The demo run finished: one result is ready. *)
Definition demo_finished : State :=
  Eval vm_compute in
    step demo_connected (Ws_message 0 (all_analyses_complete "All done" ["flood"]) "10:00:05" own_bar).

(** The socket of the demo run closes before it ever opens and the request
    is answered by HTTP 500, one after the other: the backend is down.  The
    first event leaves a reconnection timer pending, the second resets the
    form; the third is the 10 ms timer of the error toast. *)
Definition demo_backend_down : State :=
  Eval vm_compute in
    run demo_running [Ws_close 0; Fetch_settled (Response 500); Timer_fire 1].

(** With the backend down and the form reset, a second run is started at
    once and its socket opens; then the reconnection timer of the first run
    fires: [connectWebSocket] opens one more socket and overwrites the
    handle, and the socket of the second run is left open, held by nobody. *)
Definition demo_two_sockets : State :=
  Eval vm_compute in
    run demo_backend_down [Click_runAnalysisBtn; Ws_open 1; Timer_fire 0; Ws_open 2].

(** The session identifiers of the runs started so far, oldest first: one
    POST to /run-analysis per run. *)
Definition run_sessions (s : State) : list string :=
  omap (fun c => match c with Fetch _ body => Some (session_id body) | _ => None end)
       (calls (env s)).

(** A call carries the session identifier [sid], on a page served from
    [host0] over [protocol0]. *)
Definition tagged_with (protocol0 host0 sid : string) (c : Call) : Prop :=
  match c with
  | WsNew _ url =>
      url = (if String.eqb protocol0 "https:" then "wss:" else "ws:")
            +:+ "//" +:+ host0 +:+ "/ws/" +:+ sid
  | WsClose _ => True
  | Fetch _ body => session_id body = sid
  | Navigate href => href = "/results-viewer?session=" +:+ sid
  end.

(** The first demo run fails with HTTP 500 and a second one is started. *)
Definition demo_second_run : State :=
  Eval vm_compute in run demo_running [Fetch_settled (Response 500); Click_runAnalysisBtn].

(** A run-started message was handled since the page loaded:
    [handleWebSocketMessage] logs every message it is given before it
    dispatches on its type, and the console is never cleared. *)
Definition handled_start (s : State) : bool := existsb is_start (console (env s)).

(** The event is a run-started message. *)
Definition is_start_event (ev : Event) : bool :=
  match ev with Ws_message _ (analysis_start _) _ _ => true | _ => false end.

(** A statement that logs no run-started message. *)
Definition Rquiet (s s' : State) : Prop := handled_start s' = handled_start s.

(** The exception of [markProgressAsCompleted] on an undefined entry. *)
Definition undefined_entry_error : JsError :=
  {| err_name := "TypeError";
     err_message := "Cannot set properties of undefined (setting 'innerHTML')" |}.

(** The progress log as displayed: the children of [#progressContainer] in
    document order, each with the reference of its element. *)
Definition progress_log (s : State) : list (nat * ProgressItem) :=
  match progressContainer (progress s) with
  | Some refs => omap (fun ref => pair ref <$> items (progress s) !! ref) refs
  | None => []
  end.







(** How many times [close()] was called on socket [h]. *)
Definition is_close_of (h : nat) (c : Call) : bool :=
  match c with WsClose h' => h' =? h | _ => false end.
Definition close_calls (h : nat) (s : State) : nat :=
  length (List.filter (is_close_of h) (calls (env s))).

(** Socket [h] exists and is closing or closed. *)
Definition shut_in (socks : list Socket) (h : nat) : bool :=
  match readyState <$> socks !! h with
  | Some CLOSING | Some CLOSED => true
  | _ => false
  end.

(** Socket [h] is done with: it is closing or closed, the controller does
    not hold it, and [close()] was called [n] times on it. *)
Record closed_for_good (h n : nat) (s : State) : Prop :=
  { cg_shut : shut_in (sockets (env s)) h = true;
    cg_not_held : websocket (vars s) <> Some h;
    cg_held : forall h', websocket (vars s) = Some h' -> h' < length (sockets (env s));
    cg_calls : close_calls h s = n }.

Definition Rclosed (h n : nat) (s s' : State) : Prop :=
  closed_for_good h n s -> closed_for_good h n s'.

(** The label of the action button once the results are ready. *)
Definition view_results_label : Label := {| icon := "chart-bar"; caption := "View Results" |}.

(** The percentage the bar displays, when it is in the document and has
    been updated. *)
Definition displayed_percentage (s : State) : option float :=
  match analysisProgressBar (progress s) with
  | Some bar => fill_width bar
  | None => None
  end.

(** The lookup of the progress bar finds the bar the script created, or
    none: the event says so, or no text of the document carries markup. *)
Definition finds_own_bar (found : Found) (s : State) : bool :=
  match found with
  | own_bar => true
  | foreign_bar _ _ => negb (existsb has_markup (displayed_texts s))
  end.

(** The demo run after progress 2 of 2. *)
Definition demo_progress_full : State :=
  Eval vm_compute in
    step demo_connected (Ws_message 0 (progress_update 2 2 "Processing") "10:00:02" own_bar).
From Stdlib Require DecimalN DecimalPos.


(** ** What the controller keeps true between events *)

(** The listener the action button has in each mode. *)
Definition mode_listener (m : ButtonMode) : Listener :=
  match m with analysis => L_runAnalysis | results => L_showResults end.

Definition select_all_caption (all : bool) : string :=
  if all then "Deselect All" else "Select All".

(** The action button has exactly the listener of its mode; while a run is
    on, the mode is 'analysis', a socket is held and the button, the
    location field, the select-all button and every checkbox are disabled;
    [allSelected] and the caption of the select-all button say whether every
    checkbox is ticked. *)
Record Mode_inv (s : State) : Prop :=
  { mi_listeners : btn_listeners (button s) = [mode_listener (buttonMode (vars s))];
    mi_mode : isAnalyzing (vars s) = true -> buttonMode (vars s) = analysis;
    mi_held : isAnalyzing (vars s) = true -> defined (websocket (vars s)) = true;
    mi_button : isAnalyzing (vars s) = true -> btn_disabled (button s) = true;
    mi_location : isAnalyzing (vars s) = true -> location_disabled (form s) = true;
    mi_selectAll : isAnalyzing (vars s) = true -> selectAll_disabled (form s) = true;
    mi_checkboxes : isAnalyzing (vars s) = true ->
                    forallb cb_disabled (checkboxes (form s)) = true;
    mi_allSelected : allSelected (vars s) = forallb cb_checked (checkboxes (form s));
    mi_caption : caption (selectAll_label (form s)) =
                 select_all_caption (allSelected (vars s)) }.

Definition Rmode (s s' : State) : Prop := Mode_inv s -> Mode_inv s'.

(** The events the user causes, as opposed to the network and the timers. *)
Definition is_user_event (ev : Event) : bool :=
  match ev with
  | Click_runAnalysisBtn | Click_selectAllBtn | Input_location _ | Change_checkbox _
  | Key_ctrlEnter | Key_ctrlA _ => true
  | _ => false
  end.

(** The timer [toggleSelectAll] schedules to undo its visual feedback. *)
Definition unscale_timer : Timer := {| delay := 150; callback := T_selectAll_unscale |}.

(** The banner [startAnalysis] shows. *)
Definition hold_tight_label : Label :=
  {| icon := "clock"; caption := "The analysis may take a while. Hold tight..." |}.

(** The demo page with a location typed in capitals and padded, and the
    second analysis kind ticked. *)
Definition demo_typed : State :=
  Eval vm_compute in run demo_page [Input_location "  NARAYANGANJ "; Change_checkbox 1].

(** The navigation [showResults] asks for. *)
Definition results_url (s : State) : string :=
  "/results-viewer?session=" +:+ sessionId (vars s).

(** One more call leaves the page. *)
Definition called (c : Call) (s : State) : State :=
  with_env (fun e => set_calls (calls e ++ [c]) e) s.

(** A toast of [showNotification] with its message and type, by where it
    is: its [transform], and whether it is in the document. *)
Definition toast (message type transform : string) (attached : bool) : Notification :=
  {| n_type := type; n_icon := getNotificationIcon type;
     n_background := getNotificationColor type; n_message := message;
     n_transform := transform; n_attached := attached |}.

(** [rounds] times over: the held socket closes and the reconnection timer
    that its close scheduled fires. *)
Fixpoint reconnect_rounds (rounds : nat) (s : State) : State :=
  match rounds with
  | O => s
  | S k =>
      let s1 := step s (Ws_close (default 0 (websocket (vars s)))) in
      reconnect_rounds k (step s1 (Timer_fire (length (timers (env s)))))
  end.

(** The controller holds a socket that has not closed yet. *)
Definition holds_live_socket (s : State) : bool :=
  match websocket (vars s) with
  | Some h =>
      match readyState_of s h with
      | Some CLOSED | None => false
      | Some _ => true
      end
  | None => false
  end.

(** * Reasoning about handlers *)

(** ** Relations that every statement of a handler respects *)

Section Respects.
Context (R : State -> State -> Prop) `{!PreOrder R}.

Lemma keeps_ret {A} (a : A) s : keeps R (ret a) s.
Proof. unfold keeps; simpl. reflexivity. Qed.

Lemma keeps_throw {A} e s : keeps R (@throw A e) s.
Proof. unfold keeps; simpl. reflexivity. Qed.

Lemma keeps_read {A} (f : State -> A) s : keeps R (read f) s.
Proof. unfold keeps; simpl. reflexivity. Qed.

Lemma keeps_update f s : R s (f s) -> keeps R (update f) s.
Proof. unfold keeps; simpl. auto. Qed.

Lemma keeps_bind {A B} (m : M A) (k : A -> M B) s :
  keeps R m s -> (forall a s', keeps R (k a) s') -> keeps R (bind m k) s.
Proof.
  unfold keeps, bind. intros Hm Hk. destruct (m s) as [a s'|e s']; simpl in *; auto.
  transitivity s'; auto.
Qed.

(** A read binds the value the state holds: the continuation is still
    started in [s]. *)
Lemma keeps_bind_read {A B} (f : State -> A) (k : A -> M B) s :
  keeps R (k (f s)) s -> keeps R (bind (read f) k) s.
Proof. unfold keeps, bind, read. auto. Qed.

Lemma keeps_try_catch {A} (m : M A) (h : JsError -> M A) s :
  keeps R m s -> (forall e s', keeps R (h e) s') -> keeps R (try_catch m h) s.
Proof.
  unfold keeps, try_catch. intros Hm Hh. destruct (m s) as [a s'|e s']; simpl in *; auto.
  transitivity s'; auto.
Qed.

Lemma keeps_when b (m : M unit) s : (b = true -> keeps R m s) -> keeps R (when b m) s.
Proof. destruct b; simpl; intros H; [auto | apply keeps_ret]. Qed.

(** One turn of the event loop. *)
Lemma keeps_step s ev :
  keeps R (dispatch ev) s ->
  (forall e s', R s' (with_env (fun e' => set_uncaught (uncaught e' ++ [e]) e') s')) ->
  R s (step s ev).
Proof.
  unfold keeps, step. intros Hd Hu. destruct (dispatch ev s) as [a s'|e s']; simpl in *; auto.
  transitivity s'; auto.
Qed.

Lemma keeps_run s evs : (forall s ev, R s (step s ev)) -> R s (run s evs).
Proof.
  intros Hstep. revert s. induction evs as [|ev evs IH]; intros s; simpl.
  - reflexivity.
  - transitivity (step s ev); [apply Hstep | apply IH].
Qed.
End Respects.

(** Walks a handler statement by statement; [leaf] proves [R s (f s)] for
    the updates and [known] the calls of functions already dealt with. *)
Ltac walk leaf known :=
  cbv zeta;
  lazymatch goal with
  | |- keeps _ (ret _) _ => refine (keeps_ret _ _ _)
  | |- keeps _ (throw _) _ => refine (keeps_throw _ _ _)
  | |- keeps _ (read _) _ => refine (keeps_read _ _ _)
  | |- keeps _ (update _) _ => refine (keeps_update _ _ _ _); leaf
  | |- keeps _ (bind (read _) _) _ =>
      refine (keeps_bind_read _ _ _ _ _); cbv beta; walk leaf known
  | |- keeps _ (bind _ _) _ =>
      refine (keeps_bind _ _ _ _ _ _); [walk leaf known | intros; walk leaf known]
  | |- keeps _ (try_catch _ _) _ =>
      refine (keeps_try_catch _ _ _ _ _ _); [walk leaf known | intros; walk leaf known]
  | |- keeps _ (when _ _) _ => refine (keeps_when _ _ _ _ _); intros; walk leaf known
  | |- keeps _ (if ?b then _ else _) _ => destruct b eqn:?; walk leaf known
  | |- keeps _ (match ?x with _ => _ end) _ => destruct x eqn:?; walk leaf known
  | |- _ => known
  end.

Ltac head_of t := lazymatch t with ?f _ => head_of f | _ => t end.

(** Opens a state into the fields the invariants speak about. *)
Ltac destruct_state s :=
  destruct s as [[analyzing allSel ws sid res mode cur] fm btn stat [its cont bar]
                 [proto hst socks tms nfetch njson notifs cls cons unc]].

(** Runs a handler on a state given by its fields: unfolds the monad, the
    field updates and the functions of the script, and nothing else. *)
Ltac exec :=
  cbv [bind ret read update when throw try_catch final returns
       with_vars with_form with_button with_status with_progress with_env
       vars form button status progress env
       isAnalyzing allSelected websocket sessionId analysisResults buttonMode
       currentProgressItem
       location_value location_disabled checkboxes selectAll_disabled selectAll_label
       selectAll_transform
       btn_disabled btn_title btn_listeners btn_resultsReady btnText_label
       btnText_display btnLoading_display
       status_label status_display status_success
       items progressContainer analysisProgressBar
       protocol host sockets timers pendingFetch pendingJson notifications calls
       console uncaught
       set_isAnalyzing set_allSelected set_websocket set_analysisResults set_buttonMode
       set_currentProgressItem
       set_location_value set_location_disabled set_checkboxes set_selectAll_disabled
       set_selectAll_label set_selectAll_transform
       set_btn_disabled set_btn_title set_btn_listeners set_btn_resultsReady
       set_btnText_label set_btnText_display set_btnLoading_display
       set_status_label set_status_display set_status_success
       set_items set_progressContainer set_analysisProgressBar
       set_sockets set_timers set_pendingFetch set_pendingJson set_notifications
       set_calls set_console set_uncaught
       console_log console_error setTimeout new_WebSocket ws_close fetch navigate
       showNotification connectWebSocket onclose createProgressContainer
       showAnalysisProgress markProgressAsCompleted updateProgressBar
       getElementById_analysisProgressBar
       updateSelectAllButton updateRunAnalysisButton toggleSelectAll
       resetForm handleAnalysisComplete handleWebSocketMessage
       startAnalysis_catch startAnalysis startAnalysis_response startAnalysis_json
       runAnalysis showResults enable_form disable_form
       run_listener run_timer dispatch step lifecycle is_results].

(** Splits on every test a handler makes once it has been run. *)
Ltac split_tests :=
  repeat match goal with
    | |- context [if ?b then _ else _] => destruct b eqn:?
    | |- context [match ?x with Some _ => _ | None => _ end] => destruct x eqn:?
    | |- context [match ?x with own_bar => _ | foreign_bar _ _ => _ end] => destruct x eqn:?
    end.

(** ** The invariant holds in every reachable state *)

#[local] Instance Rinv_preorder : PreOrder Rinv.
Proof.
  split.
  - intros s. unfold Rinv, same_session. tauto.
  - intros s1 s2 s3 [(? & ? & ?) H12] [(? & ? & ?) H23]. unfold Rinv, same_session.
    split; [repeat split; congruence | intros HI; apply H23, H12, HI].
Qed.

Lemma existsb_snoc {A} (f : A -> bool) l x : existsb f (l ++ [x]) = existsb f l || f x.
Proof. rewrite existsb_app. simpl. now rewrite orb_false_r. Qed.

Lemma StronglySorted_snoc (l : list nat) x :
  StronglySorted lt l -> Forall (fun r => r < x) l -> StronglySorted lt (l ++ [x]).
Proof.
  induction 1 as [|a l Hs IH Ha]; intros Hx; simpl.
  - repeat constructor.
  - inversion Hx; subst. constructor; [auto|].
    apply Forall_app; split; [assumption | repeat constructor; assumption].
Qed.

Ltac inv_leaf :=
  idtac;
  lazymatch goal with
  | |- Rinv ?s _ =>
      destruct_state s; split; [done|];
      intros [Hc Hs Hw Hch Hcur Hst]; simpl in *;
      constructor; simpl;
      rewrite ?existsb_snoc, ?orb_false_r, ?length_alter;
      try done;
      try (apply Forall_app; split; [assumption | repeat constructor]);
      auto
  end.

Create HintDb inv discriminated.

Ltac inv_known :=
  idtac;
  first [ solve [auto with inv]
        | lazymatch goal with
          | |- keeps _ ?m _ => let h := head_of m in unfold h
          end; walk inv_leaf inv_known ].

Ltac inv_walk := walk inv_leaf inv_known.

Lemma Forall_alter_same {A} (P : A -> Prop) f l i :
  Forall P l -> (forall x, P x -> P (f x)) -> Forall P (alter f i l).
Proof. intros Hl Hf. apply Forall_alter; [assumption | auto]. Qed.

Ltac inv_direct s :=
  unfold keeps; destruct_state s; split; [done|];
  intros [Hc Hs Hw Hch Hcur Hst]; simpl in *; constructor; simpl;
  rewrite ?existsb_snoc, ?orb_false_r, ?length_alter, ?length_app; auto;
  try (apply Forall_app; split; [assumption | repeat constructor]).

Lemma connectWebSocket_inv s : keeps Rinv connectWebSocket s.
Proof. inv_direct s. intros h [= <-]. simpl. lia. Qed.
#[local] Hint Resolve connectWebSocket_inv : inv.

Lemma ws_close_inv h s : keeps Rinv (ws_close h) s.
Proof.
  inv_direct s. apply Forall_alter_same; [assumption|].
  intros k Hk. unfold closing. destruct (readyState k); assumption.
Qed.
#[local] Hint Resolve ws_close_inv : inv.

Lemma showResults_inv s : keeps Rinv showResults s.
Proof. inv_direct s. Qed.
#[local] Hint Resolve showResults_inv : inv.

Lemma showNotification_inv m t s : keeps Rinv (showNotification m t) s.
Proof. unfold showNotification. inv_walk. Qed.
#[local] Hint Resolve showNotification_inv : inv.

Lemma showAnalysisProgress_inv m t now s : keeps Rinv (showAnalysisProgress m t now) s.
Proof.
  unfold keeps. destruct_state s. destruct cont as [refs|].
  - split; [done|]. intros [Hc Hs Hw Hch Hcur Hst]; simpl in *. constructor; simpl; auto.
    + intros ? [= <-]. destruct (Hch refs eq_refl) as [Hlt Hsorted].
      rewrite length_app; simpl. split.
      * apply Forall_app; split; [|repeat constructor; lia].
        eapply Forall_impl; [exact Hlt|]. simpl. intros; lia.
      * apply StronglySorted_snoc; assumption.
    + intros r Hr. specialize (Hcur r Hr). rewrite length_app; simpl. lia.
  - split; [done|]. intros [Hc Hs Hw Hch Hcur Hst]; simpl in *. constructor; simpl; auto.
    + intros ? [= <-]. rewrite length_app; simpl. split; repeat constructor. lia.
    + intros r Hr. specialize (Hcur r Hr). rewrite length_app; simpl. lia.
Qed.
#[local] Hint Resolve showAnalysisProgress_inv : inv.

Lemma markProgressAsCompleted_inv m item now s :
  keeps Rinv (markProgressAsCompleted m item now) s.
Proof. destruct item; [inv_direct s | refine (keeps_throw _ _ _)]. Qed.
#[local] Hint Resolve markProgressAsCompleted_inv : inv.

Lemma updateProgressBar_inv f c t m s : keeps Rinv (updateProgressBar f c t m) s.
Proof. unfold updateProgressBar. inv_walk. Qed.
#[local] Hint Resolve updateProgressBar_inv : inv.

Lemma updateSelectAllButton_inv s : keeps Rinv updateSelectAllButton s.
Proof. unfold updateSelectAllButton. inv_walk. Qed.
#[local] Hint Resolve updateSelectAllButton_inv : inv.

Lemma updateRunAnalysisButton_inv s : keeps Rinv updateRunAnalysisButton s.
Proof. unfold updateRunAnalysisButton. inv_walk. Qed.
#[local] Hint Resolve updateRunAnalysisButton_inv : inv.

Lemma toggleSelectAll_inv s : keeps Rinv toggleSelectAll s.
Proof. unfold toggleSelectAll. inv_walk. Qed.
#[local] Hint Resolve toggleSelectAll_inv : inv.

Lemma resetForm_inv s : keeps Rinv resetForm s.
Proof. unfold resetForm. inv_walk. Qed.
#[local] Hint Resolve resetForm_inv : inv.

Lemma handleAnalysisComplete_inv m r s : keeps Rinv (handleAnalysisComplete m r) s.
Proof. unfold handleAnalysisComplete. inv_walk. Qed.
#[local] Hint Resolve handleAnalysisComplete_inv : inv.

Lemma startAnalysis_catch_inv e s : keeps Rinv (startAnalysis_catch e) s.
Proof. unfold startAnalysis_catch. inv_walk. Qed.
#[local] Hint Resolve startAnalysis_catch_inv : inv.

Lemma startAnalysis_inv sel s : keeps Rinv (startAnalysis sel) s.
Proof. unfold startAnalysis. inv_walk. Qed.
#[local] Hint Resolve startAnalysis_inv : inv.

Lemma runAnalysis_inv s : keeps Rinv runAnalysis s.
Proof. unfold runAnalysis. inv_walk. Qed.
#[local] Hint Resolve runAnalysis_inv : inv.

Lemma handleWebSocketMessage_inv m now f s : keeps Rinv (handleWebSocketMessage m now f) s.
Proof.
  destruct m; unfold handleWebSocketMessage; try solve [inv_walk].
  (* analysis_start: the entry is logged, created and remembered in one go *)
  unfold keeps. destruct_state s. destruct cont as [refs|].
  - split; [done|]. intros [Hc Hs Hw Hch Hcur Hst]; simpl in *. constructor; simpl; auto.
    + intros ? [= <-]. destruct (Hch refs eq_refl) as [Hlt Hsorted].
      rewrite length_app; simpl. split.
      * apply Forall_app; split; [|repeat constructor; lia].
        eapply Forall_impl; [exact Hlt|]. simpl. intros; lia.
      * apply StronglySorted_snoc; assumption.
    + intros r [= <-]. rewrite length_app; simpl. lia.
    + rewrite existsb_snoc. simpl. apply orb_true_r.
  - split; [done|]. intros [Hc Hs Hw Hch Hcur Hst]; simpl in *. constructor; simpl; auto.
    + intros ? [= <-]. rewrite length_app; simpl. split; repeat constructor. lia.
    + intros r [= <-]. rewrite length_app; simpl. lia.
    + rewrite existsb_snoc. simpl. apply orb_true_r.
Qed.
#[local] Hint Resolve handleWebSocketMessage_inv : inv.

Lemma startAnalysis_response_inv r s : keeps Rinv (startAnalysis_response r) s.
Proof. unfold startAnalysis_response. inv_walk. Qed.
#[local] Hint Resolve startAnalysis_response_inv : inv.

Lemma startAnalysis_json_inv r s : keeps Rinv (startAnalysis_json r) s.
Proof. unfold startAnalysis_json. inv_walk. Qed.
#[local] Hint Resolve startAnalysis_json_inv : inv.

Lemma run_listeners_inv ls s : keeps Rinv (run_listeners ls) s.
Proof.
  revert s. induction ls as [|l ls IH]; intros s; simpl.
  - refine (keeps_ret _ _ _).
  - refine (keeps_bind _ _ _ _ _ _); [destruct l; simpl; auto with inv | auto].
Qed.
#[local] Hint Resolve run_listeners_inv : inv.

Lemma run_timer_inv cb s : keeps Rinv (run_timer cb) s.
Proof. unfold run_timer. inv_walk. Qed.
#[local] Hint Resolve run_timer_inv : inv.

Lemma onclose_inv s : keeps Rinv onclose s.
Proof. unfold onclose. inv_walk. Qed.
#[local] Hint Resolve onclose_inv : inv.

Lemma set_readyState_inv r h s :
  Rinv s (with_env (fun e => set_sockets (alter (set_readyState r) h (sockets e)) e) s).
Proof.
  destruct_state s. split; [done|].
  intros [Hc Hs Hw Hch Hcur Hst]; simpl in *. constructor; simpl; auto.
  - apply Forall_alter_same; [assumption | auto].
  - now rewrite length_alter.
Qed.

Lemma dispatch_inv ev s : keeps Rinv (dispatch ev) s.
Proof.
  unfold dispatch.
  walk ltac:(idtac; first [apply set_readyState_inv | inv_leaf]) inv_known.
Qed.

(** Every turn of the event loop keeps the session and the invariant. *)
Lemma step_inv s ev : Rinv s (step s ev).
Proof.
  refine (keeps_step _ _ _ (dispatch_inv ev s) _). intros e s'. inv_leaf.
Qed.

Lemma run_inv s evs : Rinv s (run s evs).
Proof. refine (keeps_run _ _ _ _). apply step_inv. Qed.

Lemma init_inv protocol0 host0 form0 button0 status0 now random36 :
  Inv (init protocol0 host0 form0 button0 status0 now random36).
Proof.
  unfold init. cbv zeta.
  match goal with |- Inv (final (?m ?s0)) => assert (H : keeps Rinv m s0) by inv_walk;
    apply H end.
  constructor; simpl; auto; try discriminate.
Qed.

Lemma reachable_inv s : reachable s -> Inv s.
Proof.
  induction 1 as [| s ev _ IH]; [apply init_inv | now apply step_inv].
Qed.

Lemma reachable_run s evs : reachable s -> reachable (run s evs).
Proof.
  revert s. induction evs as [|ev evs IH]; intros s Hs; simpl; [assumption|].
  apply IH. now constructor.
Qed.
Lemma updateProgressBar_elsewhere (found : Found) (c t : float) (text : string) (s : State) :
  let s' := final (updateProgressBar found c t text s) in
  vars s' = vars s /\ form s' = form s /\ button s' = button s /\ status s' = status s /\
  env s' = env s /\
  items (progress s') = items (progress s) /\
  progressContainer (progress s') = progressContainer (progress s).
Proof.
  destruct_state s. exec. split_tests; repeat apply conj; reflexivity.
Qed.

Lemma reachable_demo_page : reachable demo_page.
Proof.
  exact (reachable_init "http:" "localhost:8000" demo_form demo_button demo_status
           1700000000000%N "k3j9x0q1z" eq_refl).
Defined.

Lemma reachable_demo_running : reachable demo_running.
Proof. exact (reachable_run demo_page [Change_checkbox 0; Click_runAnalysisBtn] reachable_demo_page). Defined.

Lemma reachable_demo_connected : reachable demo_connected.
Proof. exact (reachable_step demo_running (Ws_open 0) reachable_demo_running). Defined.

Lemma reachable_demo_finished : reachable demo_finished.
Proof.
  exact (reachable_step demo_connected
           (Ws_message 0 (all_analyses_complete "All done" ["flood"]) "10:00:05" own_bar)
           reachable_demo_connected).
Defined.

(** A message on an open socket reaches [handleWebSocketMessage]; on any
    other socket it is dropped. *)
Lemma dispatch_Ws_message (s : State) (h : nat) (m : Message) (now : string) (found : Found) :
  dispatch (Ws_message h m now found) s =
  if is_open s h then handleWebSocketMessage m now found s else Done tt s.
Proof. unfold dispatch, bind, read. destruct (is_open s h); reflexivity. Qed.


(** * A reconnection timer that outlives its run *)

(** C1 (the code departs from the claim).  The demo page with its backend
    down: the run has been reset to Idle, no socket is held, and the
    reconnection timer scheduled while the run was on is still pending.  When
    it fires, [connectWebSocket] runs unguarded: a socket is opened for the
    session although no run was started, and the controller stays Idle,
    now holding that socket. *)
Theorem stale_reconnect_timer_reopens_channel :
  reachable demo_backend_down /\
  lifecycle demo_backend_down = Idle /\
  websocket (vars demo_backend_down) = None /\
  timers (env demo_backend_down) !! 0 = Some reconnect_timer /\
  let s' := step demo_backend_down (Timer_fire 0) in
  calls (env s') =
    calls (env demo_backend_down) ++
    [WsNew 1 "ws://localhost:8000/ws/session_1700000000000_k3j9x0q1z"] /\
  readyState_of s' 1 = Some CONNECTING /\
  websocket (vars s') = Some 1 /\
  lifecycle s' = Idle.
Proof.
  split.
  - exact (reachable_run demo_running
             [Ws_close 0; Fetch_settled (Response 500); Timer_fire 1]
             reachable_demo_running).
  - vm_compute. repeat split.
Qed.

(** * Reconnection *)

Lemma lifecycle_Running s : lifecycle s = Running <-> isAnalyzing (vars s) = true.
Proof.
  unfold lifecycle. destruct (isAnalyzing (vars s)); [tauto|].
  destruct (is_results (buttonMode (vars s))); split; discriminate.
Qed.

Lemma wsUrl_same_session s s' : same_session s s' -> wsUrl s' = wsUrl s.
Proof. intros (Hsid & Hproto & Hhost). unfold wsUrl, scheme. now rewrite Hsid, Hproto, Hhost. Qed.

(** A reconnection timer that fires opens a socket for the session of the
    page, whatever the controller is doing by then. *)
Lemma reconnect_timer_fires (s : State) (i : nat) :
  timers (env s) !! i = Some reconnect_timer ->
  let s' := step s (Timer_fire i) in
  calls (env s') = calls (env s) ++ [WsNew (length (sockets (env s))) (wsUrl s)] /\
  timers (env s') = delete i (timers (env s)) /\
  websocket (vars s') = Some (length (sockets (env s))) /\
  lifecycle s' = lifecycle s.
Proof.
  intros Hi. destruct_state s. cbn [env timers] in Hi.
  unfold step, dispatch, bind, read. cbn [env timers]. rewrite Hi. simpl.
  repeat split.
Qed.

(** What [websocket.onclose] does when the browser closes a socket. *)
Lemma step_Ws_close (s : State) (h : nat) (k : Socket) :
  sockets (env s) !! h = Some k -> readyState k <> CLOSED ->
  step s (Ws_close h) =
  if isAnalyzing (vars s)
  then scheduled reconnect_timer (logged "WebSocket disconnected" (closed h s))
  else logged "WebSocket disconnected" (closed h s).
Proof.
  intros Hk Hopen. destruct_state s. cbn [env sockets] in Hk.
  unfold step, dispatch, bind, read, readyState_of. cbn [env sockets]. rewrite Hk. simpl.
  destruct (readyState k); try congruence; destruct analyzing; reflexivity.
Qed.

(** C2. The browser reports that socket [h] closed.  If the controller is
    Running, exactly one timer is added, with a delay of 2000 ms, and nothing
    else changes but the socket's state and the console; whenever such a
    timer fires later, after any events, it is consumed and the socket it
    opens has the address of the closed one, which ends in the session
    identifier of the page.  If the controller is not Running, no timer is
    added and nothing changes but the socket's state and the console. *)
Theorem close_while_Running_schedules_one_reconnect (s : State) (h : nat) (k : Socket) :
  reachable s ->
  sockets (env s) !! h = Some k ->
  readyState k <> CLOSED ->
  let s1 := step s (Ws_close h) in
  (lifecycle s = Running ->
   s1 = scheduled reconnect_timer (logged "WebSocket disconnected" (closed h s)) /\
   timers (env s1) = timers (env s) ++ [reconnect_timer] /\
   calls (env s1) = calls (env s) /\
   ws_url k = scheme s +:+ "//" +:+ host (env s) +:+ "/ws/" +:+ sessionId (vars s) /\
   forall evs i,
     let s2 := run s1 evs in
     timers (env s2) !! i = Some reconnect_timer ->
     calls (env (step s2 (Timer_fire i))) =
       calls (env s2) ++ [WsNew (length (sockets (env s2))) (ws_url k)] /\
     timers (env (step s2 (Timer_fire i))) = delete i (timers (env s2))) /\
  (lifecycle s <> Running ->
   s1 = logged "WebSocket disconnected" (closed h s) /\
   timers (env s1) = timers (env s) /\
   calls (env s1) = calls (env s) /\
   vars s1 = vars s).
Proof.
  intros Hreach Hk Hopen s1. subst s1.
  rewrite (step_Ws_close s h k Hk Hopen).
  assert (Hurl : ws_url k = wsUrl s).
  { pose proof (inv_sockets _ (reachable_inv s Hreach)) as Hs.
    rewrite Forall_lookup in Hs. exact (Hs h k Hk). }
  split.
  - intros Hrun%lifecycle_Running. rewrite Hrun.
    split; [reflexivity|]. split; [destruct_state s; reflexivity|].
    split; [destruct_state s; reflexivity|]. split; [exact Hurl|].
    intros evs i s2 Hi.
    destruct (reconnect_timer_fires s2 i Hi) as (Hcalls & Htimers & _).
    split; [|exact Htimers]. rewrite Hcalls. do 3 f_equal.
    rewrite Hurl. subst s2.
    rewrite (wsUrl_same_session _ _ (proj1 (run_inv _ evs))).
    destruct_state s. reflexivity.
  - intros Hrun. assert (isAnalyzing (vars s) = false) as ->.
    { destruct (isAnalyzing (vars s)) eqn:E; [|reflexivity].
      exfalso. apply Hrun. now apply lifecycle_Running. }
    destruct_state s. repeat split.
Qed.

(** The socket of the demo run closes while the run is on, and the socket of
    the finished run closes after [close()]. *)
Lemma close_while_Running_schedules_one_reconnect_witness :
  timers (env (step demo_connected (Ws_close 0))) =
    timers (env demo_connected) ++ [reconnect_timer] /\
  timers (env (step demo_finished (Ws_close 0))) = timers (env demo_finished).
Proof.
  split.
  - refine (proj1 (proj2 (proj1 (close_while_Running_schedules_one_reconnect
      demo_connected 0 {| ws_url := _; readyState := OPEN |}
      reachable_demo_connected eq_refl _) _))); [discriminate | reflexivity].
  - refine (proj1 (proj2 (proj2 (close_while_Running_schedules_one_reconnect
      demo_finished 0 {| ws_url := _; readyState := CLOSING |}
      reachable_demo_finished eq_refl _) _))); discriminate.
Defined.

(** * Starting a run *)

Lemma filter_none_checked (boxes : list Checkbox) :
  Forall (fun cb => cb_checked cb = false) boxes -> List.filter cb_checked boxes = [].
Proof.
  induction 1 as [|cb boxes Hcb _ IH]; simpl; [reflexivity|]. now rewrite Hcb.
Qed.

Lemma lifecycle_not_Idle s :
  lifecycle s <> Idle -> isAnalyzing (vars s) || is_results (buttonMode (vars s)) = true.
Proof.
  unfold lifecycle. destruct (isAnalyzing (vars s)); [reflexivity|].
  destruct (is_results (buttonMode (vars s))); [reflexivity | congruence].
Qed.

Lemma lifecycle_Idle s :
  lifecycle s = Idle -> isAnalyzing (vars s) || is_results (buttonMode (vars s)) = false.
Proof.
  unfold lifecycle. destruct (isAnalyzing (vars s)); [discriminate|].
  destruct (is_results (buttonMode (vars s))); [discriminate | reflexivity].
Qed.

(** C3. [runAnalysis] returns at once, leaving the page as it is, unless the
    controller is Idle; and when it is Idle but the trimmed location is empty
    or no analysis kind is ticked, it shows the validation notification and
    nothing else happens: no socket is created, no request is sent, the
    closure variables and the form are untouched, the controller stays Idle. *)
Theorem runAnalysis_only_from_Idle_with_valid_form (s : State) :
  (lifecycle s <> Idle -> runAnalysis s = Done tt s) /\
  (lifecycle s = Idle ->
   trim (location_value (form s)) = "" \/ none_selected s ->
   let s' := final (runAnalysis s) in
   returns (runAnalysis s) = true /\
   notifications (env s') = notifications (env s) ++ [validation_notification] /\
   calls (env s') = calls (env s) /\
   sockets (env s') = sockets (env s) /\
   pendingFetch (env s') = pendingFetch (env s) /\
   vars s' = vars s /\ form s' = form s /\ button s' = button s /\
   status s' = status s /\ progress s' = progress s /\
   lifecycle s' = Idle).
Proof.
  split.
  - intros H. apply lifecycle_not_Idle in H.
    unfold runAnalysis, bind, read. now rewrite H.
  - intros H Hform. pose proof (lifecycle_Idle s H) as Hguard.
    assert (Hinvalid :
      String.eqb (trim (location_value (form s))) "" ||
      (length (map cb_value (List.filter cb_checked (checkboxes (form s)))) =? 0) = true).
    { destruct Hform as [-> | Hnone]; [reflexivity|].
      unfold none_selected in Hnone. rewrite (filter_none_checked _ Hnone).
      apply orb_true_r. }
    unfold runAnalysis, bind, read. rewrite Hguard. cbv zeta. rewrite Hinvalid.
    destruct s as [v f b t p e]. simpl. repeat split; try reflexivity. exact H.
Qed.

(** The page with a blank location: the form is incomplete. *)
Lemma runAnalysis_only_from_Idle_with_valid_form_witness :
  notifications (env (final (runAnalysis (step demo_page (Input_location "  "))))) =
  [validation_notification] /\
  runAnalysis demo_running = Done tt demo_running.
Proof.
  split.
  - refine (proj1 (proj2 (proj2 (runAnalysis_only_from_Idle_with_valid_form
      (step demo_page (Input_location "  "))) _ _))).
    + reflexivity.
    + left. reflexivity.
  - apply (proj1 (runAnalysis_only_from_Idle_with_valid_form demo_running)).
    discriminate.
Defined.

(** * The end of a run *)

#[local] Instance Rclosed_preorder h n : PreOrder (Rclosed h n).
Proof. split; unfold Rclosed; [intros s; tauto | intros s1 s2 s3; tauto]. Qed.

Lemma shut_in_lt socks h : shut_in socks h = true -> h < length socks.
Proof.
  unfold shut_in. destruct (socks !! h) as [k|] eqn:E; [|discriminate].
  intros _. eapply lookup_lt_Some, E.
Qed.

Lemma shut_in_app socks more h : shut_in socks h = true -> shut_in (socks ++ more) h = true.
Proof.
  intros H. unfold shut_in. rewrite lookup_app_l by now apply shut_in_lt. exact H.
Qed.

Lemma shut_in_alter_ne f socks h h' :
  h' <> h -> shut_in (alter f h' socks) h = shut_in socks h.
Proof. intros Hne. unfold shut_in. now rewrite list_lookup_alter_ne. Qed.

Lemma shut_in_alter_shut f socks h h' :
  (forall k, readyState k = CLOSING \/ readyState k = CLOSED ->
             readyState (f k) = CLOSING \/ readyState (f k) = CLOSED) ->
  shut_in socks h = true -> shut_in (alter f h' socks) h = true.
Proof.
  intros Hf H. destruct (decide (h' = h)) as [->|Hne]; [|now rewrite shut_in_alter_ne].
  unfold shut_in in *. rewrite list_lookup_alter_eq.
  destruct (socks !! h) as [k|]; simpl in *; [|discriminate].
  destruct (Hf k) as [-> | ->]; [|reflexivity..].
  destruct (readyState k); try discriminate; auto.
Qed.

Lemma closing_stays_shut k :
  readyState k = CLOSING \/ readyState k = CLOSED ->
  readyState (closing k) = CLOSING \/ readyState (closing k) = CLOSED.
Proof. unfold closing. intros [H|H]; rewrite H; simpl; auto. Qed.

Lemma closed_stays_shut k :
  readyState k = CLOSING \/ readyState k = CLOSED ->
  readyState (set_readyState CLOSED k) = CLOSING \/
  readyState (set_readyState CLOSED k) = CLOSED.
Proof. intros _. right. reflexivity. Qed.

Lemma close_calls_snoc h s c :
  length (List.filter (is_close_of h) (calls (env s) ++ [c])) =
  close_calls h s + (if is_close_of h c then 1 else 0).
Proof.
  unfold close_calls. rewrite List.filter_app, length_app. simpl.
  destruct (is_close_of h c); reflexivity.
Qed.

(** A statement that touches neither the sockets, nor the calls, nor the
    handle. *)
Lemma Rclosed_frame h n s s' :
  sockets (env s') = sockets (env s) -> calls (env s') = calls (env s) ->
  websocket (vars s') = websocket (vars s) -> Rclosed h n s s'.
Proof.
  intros Hs Hc Hw [H1 H2 H3 H4]. constructor; unfold close_calls in *;
    rewrite ?Hs, ?Hc, ?Hw; assumption.
Qed.

Lemma Rclosed_release h n s : Rclosed h n s (with_vars (set_websocket None) s).
Proof.
  intros [H1 H2 H3 H4]. constructor; try assumption; simpl; discriminate.
Qed.

Lemma Rclosed_closed h n h' s :
  Rclosed h n s (with_env (fun e => set_sockets (alter (set_readyState CLOSED) h' (sockets e)) e) s).
Proof.
  intros [H1 H2 H3 H4]. constructor; simpl; try assumption.
  - apply shut_in_alter_shut; [apply closed_stays_shut | assumption].
  - intros h0 Hh0. rewrite length_alter. now apply H3.
Qed.

Lemma Rclosed_opened h n h' s :
  readyState_of s h' = Some CONNECTING ->
  Rclosed h n s (with_env (fun e => set_sockets (alter (set_readyState OPEN) h' (sockets e)) e) s).
Proof.
  intros Hconn [H1 H2 H3 H4]. constructor; simpl; try assumption.
  - rewrite shut_in_alter_ne; [assumption|]. intros ->.
    unfold shut_in, readyState_of in *. rewrite Hconn in H1. discriminate.
  - intros h0 Hh0. rewrite length_alter. now apply H3.
Qed.

Lemma ws_close_held_closed h n h' s :
  websocket (vars s) = Some h' -> keeps (Rclosed h n) (ws_close h') s.
Proof.
  intros Hheld [H1 H2 H3 H4]. assert (h' <> h) by congruence.
  unfold keeps; simpl. constructor; simpl; try assumption.
  - now rewrite shut_in_alter_ne.
  - intros h0 Hh0. rewrite length_alter. now apply H3.
  - unfold close_calls. simpl. rewrite close_calls_snoc. simpl.
    apply Nat.eqb_neq in H as ->. lia.
Qed.

Lemma connectWebSocket_closed h n s : keeps (Rclosed h n) connectWebSocket s.
Proof.
  intros [H1 H2 H3 H4]. pose proof (shut_in_lt _ _ H1) as Hlt.
  unfold keeps; simpl. constructor; simpl.
  - now apply shut_in_app.
  - intros [= Heq]. lia.
  - intros h' [= <-]. rewrite length_app. simpl. lia.
  - unfold close_calls. simpl. rewrite close_calls_snoc. simpl. lia.
Qed.

Ltac closed_leaf :=
  idtac;
  first
    [ apply Rclosed_frame; reflexivity
    | apply Rclosed_release
    | apply Rclosed_closed
    | apply Rclosed_opened; assumption
    | lazymatch goal with
      | |- Rclosed _ _ ?s _ =>
          let H1 := fresh in let H2 := fresh in let H3 := fresh in let H4 := fresh in
          intros [H1 H2 H3 H4]; destruct_state s; constructor;
          unfold close_calls in *; simpl in *;
          rewrite ?List.filter_app, ?length_app; simpl; try assumption; lia
      end ].

Create HintDb closed discriminated.

Ltac closed_known :=
  idtac;
  lazymatch goal with
  | |- keeps _ connectWebSocket _ => apply connectWebSocket_closed
  | |- keeps _ (ws_close _) _ => apply ws_close_held_closed; assumption
  | |- keeps _ ?m _ =>
      first [ solve [auto with closed]
            | let h := head_of m in unfold h; walk closed_leaf closed_known ]
  end.

Lemma showNotification_closed h n m t s : keeps (Rclosed h n) (showNotification m t) s.
Proof. unfold showNotification. walk closed_leaf closed_known. Qed.
#[local] Hint Resolve showNotification_closed : closed.

Lemma updateSelectAllButton_closed h n  s : keeps (Rclosed h n) updateSelectAllButton s.
Proof. unfold updateSelectAllButton. walk closed_leaf closed_known. Qed.
#[local] Hint Resolve updateSelectAllButton_closed : closed.

Lemma updateRunAnalysisButton_closed h n  s : keeps (Rclosed h n) updateRunAnalysisButton s.
Proof. unfold updateRunAnalysisButton. walk closed_leaf closed_known. Qed.
#[local] Hint Resolve updateRunAnalysisButton_closed : closed.

Lemma toggleSelectAll_closed h n  s : keeps (Rclosed h n) toggleSelectAll s.
Proof. unfold toggleSelectAll. walk closed_leaf closed_known. Qed.
#[local] Hint Resolve toggleSelectAll_closed : closed.

Lemma resetForm_closed h n  s : keeps (Rclosed h n) resetForm s.
Proof. unfold resetForm. walk closed_leaf closed_known. Qed.
#[local] Hint Resolve resetForm_closed : closed.

Lemma handleAnalysisComplete_closed h n m r s : keeps (Rclosed h n) (handleAnalysisComplete m r) s.
Proof. unfold handleAnalysisComplete. walk closed_leaf closed_known. Qed.
#[local] Hint Resolve handleAnalysisComplete_closed : closed.

Lemma handleWebSocketMessage_closed h n m now f s :
  keeps (Rclosed h n) (handleWebSocketMessage m now f) s.
Proof. unfold handleWebSocketMessage. walk closed_leaf closed_known. Qed.
#[local] Hint Resolve handleWebSocketMessage_closed : closed.

Lemma startAnalysis_catch_closed h n e s : keeps (Rclosed h n) (startAnalysis_catch e) s.
Proof. unfold startAnalysis_catch. walk closed_leaf closed_known. Qed.
#[local] Hint Resolve startAnalysis_catch_closed : closed.

Lemma startAnalysis_closed h n sel s : keeps (Rclosed h n) (startAnalysis sel) s.
Proof. unfold startAnalysis. walk closed_leaf closed_known. Qed.
#[local] Hint Resolve startAnalysis_closed : closed.

Lemma runAnalysis_closed h n  s : keeps (Rclosed h n) runAnalysis s.
Proof. unfold runAnalysis. walk closed_leaf closed_known. Qed.
#[local] Hint Resolve runAnalysis_closed : closed.

Lemma run_listeners_closed h n ls s : keeps (Rclosed h n) (run_listeners ls) s.
Proof.
  revert s. induction ls as [|l ls IH]; intros s; simpl.
  - refine (keeps_ret _ _ _).
  - refine (keeps_bind _ _ _ _ _ _); [destruct l; simpl; walk closed_leaf closed_known | auto].
Qed.
#[local] Hint Resolve run_listeners_closed : closed.

(** A socket that is done with stays so, whatever happens next. *)
Lemma step_closed h n s ev : Rclosed h n s (step s ev).
Proof.
  refine (keeps_step _ _ _ _ _).
  - unfold dispatch. walk closed_leaf closed_known.
  - intros e s'. closed_leaf.
Qed.

Lemma run_closed h n s evs : Rclosed h n s (run s evs).
Proof. refine (keeps_run _ _ _ _). apply step_closed. Qed.

Lemma navigate_listener_bound (ls : list Listener) :
  In L_showResults (addEventListener L_showResults (removeEventListener L_runAnalysis ls)) /\
  ~ In L_runAnalysis (addEventListener L_showResults (removeEventListener L_runAnalysis ls)).
Proof.
  unfold addEventListener.
  assert (Hno : ~ In L_runAnalysis (removeEventListener L_runAnalysis ls)).
  { unfold removeEventListener. intros H%filter_In. destruct H as [_ H]. discriminate. }
  destruct (existsb _ _) eqn:E.
  - split; [|exact Hno]. apply existsb_exists in E as (l & Hl & Heq).
    destruct l; [discriminate | exact Hl].
  - split.
    + apply in_or_app. right. now left.
    + intros [H | [H | []]]%in_app_or; [now apply Hno | discriminate].
Qed.

Lemma shut_not_open s h : shut_in (sockets (env s)) h = true -> is_open s h = false.
Proof.
  unfold shut_in, is_open, readyState_of.
  destruct (readyState <$> sockets (env s) !! h) as [[]|]; intros; congruence.
Qed.

(** What the run-finished message does, in one turn. *)
Lemma step_run_finished (s : State) (h : nat) (text : string) (done : list string)
    (now : string) (found : Found) :
  websocket (vars s) = Some h ->
  is_open s h = true ->
  let s1 := step s (Ws_message h (all_analyses_complete text done) now found) in
  vars s1 = set_buttonMode results (set_analysisResults done
              (set_isAnalyzing false (set_websocket None (vars s)))) /\
  calls (env s1) = calls (env s) ++ [WsClose h] /\
  sockets (env s1) = alter closing h (sockets (env s)) /\
  form s1 = enable_form (form s) /\
  btn_listeners (button s1) =
    addEventListener L_showResults (removeEventListener L_runAnalysis (btn_listeners (button s))) /\
  btnText_label (button s1) = view_results_label /\
  btn_disabled (button s1) = false /\
  progress s1 = progress s.
Proof.
  intros Hheld Hopen s1. subst s1. unfold step. rewrite dispatch_Ws_message, Hopen.
  destruct_state s. simpl in Hheld. subst ws. exec. repeat split.
Qed.

(** The run-finished message arrives, while Running, on the socket the
    controller holds.  The result descriptors are stored; [close()] is
    called on the socket, once, and the handle is dropped; the action button
    navigates to the results instead of submitting and is enabled; the
    location field, the select-all button and every checkbox are enabled.
    From then on, whatever happens, [close()] is never called on that socket
    again and every message delivered on it is dropped.  This speaks of the
    held socket only. *)
Theorem run_finished_closes_channel_once (s : State) (h : nat) (text : string)
    (done : list string) (now : string) (found : Found) :
  lifecycle s = Running ->
  websocket (vars s) = Some h ->
  is_open s h = true ->
  let s1 := step s (Ws_message h (all_analyses_complete text done) now found) in
  lifecycle s1 = ResultsReady /\
  analysisResults (vars s1) = done /\
  calls (env s1) = calls (env s) ++ [WsClose h] /\
  websocket (vars s1) = None /\
  readyState_of s1 h = Some CLOSING /\
  In L_showResults (btn_listeners (button s1)) /\
  ~ In L_runAnalysis (btn_listeners (button s1)) /\
  btnText_label (button s1) = view_results_label /\
  btn_disabled (button s1) = false /\
  location_disabled (form s1) = false /\
  selectAll_disabled (form s1) = false /\
  Forall (fun cb => cb_disabled cb = false) (checkboxes (form s1)) /\
  forall evs,
    let s2 := run s1 evs in
    close_calls h s2 = S (close_calls h s) /\
    forall m now' found', step s2 (Ws_message h m now' found') = s2.
Proof.
  intros _ Hheld Hopen s1.
  destruct (step_run_finished s h text done now found Hheld Hopen)
    as (Hvars & Hcalls & Hsocks & Hform & Hls & Hlabel & Hdis & _).
  fold s1 in Hvars, Hcalls, Hsocks, Hform, Hls, Hlabel, Hdis.
  assert (Hstate : readyState_of s1 h = Some CLOSING).
  { unfold readyState_of, is_open in *. rewrite Hsocks, list_lookup_alter_eq.
    unfold readyState_of in Hopen. destruct (sockets (env s) !! h) as [k|]; [|discriminate].
    simpl in *. unfold closing. destruct (readyState k); try discriminate. reflexivity. }
  destruct (navigate_listener_bound (btn_listeners (button s))) as [Hin Hout].
  split; [unfold lifecycle; now rewrite Hvars|].
  split; [now rewrite Hvars|]. split; [exact Hcalls|].
  split; [now rewrite Hvars|]. split; [exact Hstate|].
  split; [now rewrite Hls|]. split; [now rewrite Hls|].
  split; [exact Hlabel|]. split; [exact Hdis|].
  split; [now rewrite Hform|]. split; [now rewrite Hform|].
  split.
  { rewrite Hform. unfold enable_form. simpl. clear.
    induction (checkboxes (form s)); simpl; constructor; auto. }
  assert (Hgood : closed_for_good h (S (close_calls h s)) s1).
  { constructor.
    - unfold shut_in. unfold readyState_of in Hstate. now rewrite Hstate.
    - rewrite Hvars. discriminate.
    - rewrite Hvars. discriminate.
    - unfold close_calls. rewrite Hcalls, List.filter_app, length_app. simpl.
      rewrite Nat.eqb_refl. simpl. lia. }
  intros evs s2. pose proof (run_closed _ _ s1 evs Hgood) as [Hshut _ _ Hn].
  fold s2 in Hshut, Hn. split; [exact Hn|].
  intros m now' found'. unfold step. rewrite dispatch_Ws_message, (shut_not_open _ _ Hshut).
  reflexivity.
Qed.

(** The demo run finishes with one result. *)
Lemma run_finished_closes_channel_once_witness :
  lifecycle demo_finished = ResultsReady /\
  analysisResults (vars demo_finished) = ["flood"] /\
  calls (env demo_finished) = calls (env demo_connected) ++ [WsClose 0] /\
  forall evs, close_calls 0 (run demo_finished evs) = 1.
Proof.
  destruct (run_finished_closes_channel_once demo_connected 0 "All done" ["flood"]
              "10:00:05" own_bar eq_refl eq_refl eq_refl)
    as (H1 & H2 & H3 & _ & _ & _ & _ & _ & _ & _ & _ & _ & H4).
  split; [exact H1|]. split; [exact H2|]. split; [exact H3|].
  intros evs. exact (proj1 (H4 evs)).
Defined.

(** C4 (the code departs from the claim).  A socket of the session that the
    controller no longer holds goes on delivering after the run has
    finished.  On the demo page two sockets of the one session are open,
    after the reconnection timer of a run that was reset fired during the
    next run.  The run-finished message arrives on the socket the
    controller holds: the results are stored, [close()] is called on that
    socket, once, and the page is in ResultsReady.  The other socket was
    never closed and is still open, and what arrives on it is processed: a
    run-started message adds an entry to the log, and a fatal error resets
    the page to Idle and throws the results away. *)
Theorem leaked_socket_delivers_after_run_finished :
  reachable demo_two_sockets /\
  lifecycle demo_two_sockets = Running /\
  websocket (vars demo_two_sockets) = Some 2 /\
  is_open demo_two_sockets 1 = true /\
  is_open demo_two_sockets 2 = true /\
  ws_url <$> sockets (env demo_two_sockets) !! 1 = Some (wsUrl demo_two_sockets) /\
  ws_url <$> sockets (env demo_two_sockets) !! 2 = Some (wsUrl demo_two_sockets) /\
  let s1 := step demo_two_sockets
              (Ws_message 2 (all_analyses_complete "All done" ["flood"]) "10:00:09" own_bar) in
  lifecycle s1 = ResultsReady /\
  analysisResults (vars s1) = ["flood"] /\
  websocket (vars s1) = None /\
  close_calls 2 s1 = 1 /\
  close_calls 1 s1 = 0 /\
  readyState_of s1 2 = Some CLOSING /\
  is_open s1 1 = true /\
  progress_log s1 = [] /\
  progress_log (step s1 (Ws_message 1 (analysis_start "Heat map") "10:00:10" own_bar)) =
    [(0, {| pi_className := "progress-item progress-info"; pi_icon := "spinner fa-spin";
            pi_message := "Heat map"; pi_timestamp := "10:00:10" |})] /\
  lifecycle (step s1 (Ws_message 1 (error "Worker crashed") "10:00:10" own_bar)) = Idle.
Proof.
  split.
  - exact (reachable_run demo_running
             [Ws_close 0; Fetch_settled (Response 500); Timer_fire 1;
              Click_runAnalysisBtn; Ws_open 1; Timer_fire 0; Ws_open 2]
             reachable_demo_running).
  - vm_compute. repeat split.
Qed.

(** * Resetting to Idle *)

Lemma existsb_checked_enabled (boxes : list Checkbox) b :
  existsb cb_checked (map (set_cb_disabled b) boxes) = existsb cb_checked boxes.
Proof. induction boxes as [|cb boxes IH]; simpl; [reflexivity | now rewrite IH]. Qed.

Lemma Forall_enabled (boxes : list Checkbox) :
  Forall (fun cb => cb_disabled cb = false) (map (set_cb_disabled false) boxes).
Proof. induction boxes; simpl; constructor; auto. Qed.

Lemma submit_listener_bound (ls : list Listener) :
  In L_runAnalysis (addEventListener L_runAnalysis (removeEventListener L_showResults ls)) /\
  ~ In L_showResults (addEventListener L_runAnalysis (removeEventListener L_showResults ls)).
Proof.
  unfold addEventListener.
  assert (Hno : ~ In L_showResults (removeEventListener L_showResults ls)).
  { unfold removeEventListener. intros H%filter_In. destruct H as [_ H]. discriminate. }
  destruct (existsb _ _) eqn:E.
  - split; [|exact Hno]. apply existsb_exists in E as (l & Hl & Heq).
    destruct l; [exact Hl | discriminate].
  - split.
    + apply in_or_app. right. now left.
    + intros [H | [H | []]]%in_app_or; [now apply Hno | discriminate].
Qed.

Lemma closing_not_open (socks : list Socket) (h : nat) :
  match readyState <$> alter closing h socks !! h with
  | Some OPEN | Some CONNECTING => false
  | _ => true
  end = true.
Proof.
  rewrite list_lookup_alter_eq. destruct (socks !! h) as [k|]; simpl; [|reflexivity].
  unfold closing. destruct (readyState k) eqn:E; simpl; rewrite ?E; reflexivity.
Qed.

(** What [resetForm] does, from any state. *)
Lemma resetForm_spec (s : State) :
  let s' := final (resetForm s) in
  returns (resetForm s) = true /\
  usable_Idle s' /\
  calls (env s') = calls (env s) ++ close_held s /\
  (forall h, websocket (vars s) = Some h -> is_open s' h = false) /\
  notifications (env s') = notifications (env s) /\
  timers (env s') = timers (env s) /\
  pendingFetch (env s') = pendingFetch (env s) /\
  length (sockets (env s')) = length (sockets (env s)) /\
  sessionId (vars s') = sessionId (vars s) /\
  location_value (form s') = location_value (form s) /\
  canRun s' = canRun s.
Proof.
  destruct_state s. destruct fm as [loc locd boxes sad sal sat].
  destruct btn as [bd bt bl br btl btd bld].
  assert (Hl := submit_listener_bound bl).
  unfold close_held, is_open, readyState_of, canRun. exec.
  destruct ws as [h|];
    rewrite existsb_checked_enabled;
    destruct (0 <? String.length (trim loc)) eqn:Hloc;
    destruct (existsb cb_checked boxes) eqn:Hsel; simpl;
    (split; [reflexivity|]);
    (split; [|rewrite ?app_nil_r, ?length_alter, ?existsb_checked_enabled, ?Hloc, ?Hsel;
              repeat split; try reflexivity; try discriminate;
              intros ? [= <-]; pose proof (closing_not_open socks h) as Hc;
              destruct (readyState <$> alter closing h socks !! h) as [[]|];
              try reflexivity; discriminate]);
    (constructor; simpl; try reflexivity; try tauto;
     [apply Forall_enabled | unfold canRun; simpl;
      now rewrite existsb_checked_enabled, Hloc, Hsel]).
Qed.

Lemma resetForm_returns (s : State) : resetForm s = Done tt (final (resetForm s)).
Proof.
  pose proof (resetForm_spec s) as [H _]. destruct (resetForm s) as [[] s'|e s']; [reflexivity|].
  discriminate.
Qed.

(** A failed request runs the [catch] clause of [startAnalysis]: the error
    is logged and shown, and the form is reset. *)
Lemma step_submission_failure (s : State) (r : FetchOutcome) (reason : string) :
  0 < pendingFetch (env s) ->
  failure_reason r = Some reason ->
  step s (Fetch_settled r) =
  final (resetForm
    (final ((console_error ("Error starting analysis: " +:+ reason) ;;
             showNotification ("Error starting analysis: " +:+ reason) "error")
            (with_env (set_pendingFetch (pred (pendingFetch (env s)))) s)))).
Proof.
  intros Hpending Hreason.
  destruct_state s. simpl in Hpending. destruct nfetch as [|n]; [lia|].
  unfold step, dispatch, startAnalysis_response, startAnalysis_catch.
  set (reset := resetForm).
  destruct r as [[name msg] | st]; simpl in Hreason.
  - injection Hreason as <-. exec.
    match goal with |- context [reset ?s1] => rewrite (resetForm_returns s1 : reset s1 = _) end.
    reflexivity.
  - destruct (ok st) eqn:Hok; [discriminate|]. injection Hreason as <-.
    simpl negb. cbv iota. exec.
    match goal with |- context [reset ?s1] => rewrite (resetForm_returns s1 : reset s1 = _) end.
    reflexivity.
Qed.

(** C5. When the request of [startAnalysis] fails (the promise of [fetch]
    is rejected, or the response is not 2xx), the controller ends Idle and
    usable: an error notification that quotes the reason is shown, the socket
    it holds is closed, the location field, the select-all button and every
    checkbox are enabled, the action button submits again and is enabled as
    soon as the form is complete. *)
Theorem submission_failure_resets_to_Idle (s : State) (r : FetchOutcome) (reason : string) :
  0 < pendingFetch (env s) ->
  failure_reason r = Some reason ->
  let s' := step s (Fetch_settled r) in
  usable_Idle s' /\
  notifications (env s') =
    notifications (env s) ++ [error_notification ("Error starting analysis: " +:+ reason)] /\
  calls (env s') = calls (env s) ++ close_held s /\
  (forall h, websocket (vars s) = Some h -> is_open s' h = false) /\
  (canRun s = true -> btn_disabled (button s') = false).
Proof.
  intros Hpending Hreason s'. subst s'.
  rewrite (step_submission_failure s r reason Hpending Hreason).
  match goal with |- context [resetForm ?s1] =>
    set (shown := s1); pose proof (resetForm_spec shown) as Hreset end.
  cbv zeta in Hreset.
  destruct Hreset as (_ & Hidle & Hcalls & Hopen & Hnotes & _ & _ & _ & _ & _ & Hrun).
  assert (Hshown : vars shown = vars s /\ form shown = form s /\
                   calls (env shown) = calls (env s) /\
                   notifications (env shown) = notifications (env s) ++
                     [error_notification ("Error starting analysis: " +:+ reason)]).
  { subst shown. destruct_state s. repeat split. }
  destruct Hshown as (Hv & Hf & Hc & Hn).
  split; [exact Hidle|].
  split; [now rewrite Hnotes, Hn|].
  split; [rewrite Hcalls, Hc; unfold close_held; now rewrite Hv|].
  split; [intros h Hh; apply Hopen; now rewrite Hv|].
  intros Hcan. rewrite (idle_button _ Hidle), Hrun. unfold canRun. rewrite Hf.
  fold (canRun s). now rewrite Hcan.
Qed.

(** The demo run, its socket open, answered by HTTP 500. *)
Lemma submission_failure_resets_to_Idle_witness :
  let s' := step (step demo_running (Ws_open 0)) (Fetch_settled (Response 500)) in
  usable_Idle s' /\
  notifications (env s') =
    [error_notification "Error starting analysis: HTTP error! status: 500"] /\
  calls (env s') = calls (env demo_running) ++ [WsClose 0] /\
  btn_disabled (button s') = false.
Proof.
  intros s'.
  destruct (submission_failure_resets_to_Idle (step demo_running (Ws_open 0))
              (Response 500) "HTTP error! status: 500")
    as (Hidle & Hnotes & Hcalls & _ & Hbutton).
  - vm_compute. lia.
  - reflexivity.
  - split; [exact Hidle|]. split; [exact Hnotes|]. split; [exact Hcalls|].
    apply Hbutton. reflexivity.
Defined.

(** * The session identifier *)

Lemma init_session protocol0 host0 form0 button0 status0 now random36 :
  let s := init protocol0 host0 form0 button0 status0 now random36 in
  sessionId (vars s) = generateSessionId now random36 /\
  protocol (env s) = protocol0 /\ host (env s) = host0.
Proof.
  unfold init. cbv zeta.
  match goal with |- context [final (?m ?s0)] =>
    assert (H : keeps Rinv m s0) by inv_walk; destruct H as [H _] end.
  exact H.
Qed.

(** C6, counterexample.  Two runs started on one page, the second after the
    first failed, carry the same session identifier. *)
Lemma two_runs_share_session_identifier :
  reachable demo_second_run /\
  run_sessions demo_second_run =
    ["session_1700000000000_k3j9x0q1z"; "session_1700000000000_k3j9x0q1z"] /\
  ~ NoDup (run_sessions demo_second_run).
Proof.
  split; [|split].
  - exact (reachable_run demo_running [Fetch_settled (Response 500); Click_runAnalysisBtn]
             reachable_demo_running).
  - reflexivity.
  - intros H. apply NoDup_cons in H as [H _]. apply H. vm_compute. left.
Qed.

(** C6, as amended.  The session identifier is generated once, when the
    page loads, and never changes: after any events, every request sent,
    every socket opened and every navigation to the results carries the
    identifier generated at load, so all runs of one page share it. *)
Theorem session_identifier_fixed_at_page_load
    (protocol0 host0 : string) (form0 : Form) (button0 : ActionBtn) (status0 : Status)
    (now : N) (random36 : string) (evs : list Event) :
  let sid := generateSessionId now random36 in
  let s := run (init protocol0 host0 form0 button0 status0 now random36) evs in
  sessionId (vars s) = sid /\
  Forall (tagged_with protocol0 host0 sid) (calls (env s)) /\
  Forall (fun id => id = sid) (run_sessions s).
Proof.
  intros sid s.
  pose proof (init_session protocol0 host0 form0 button0 status0 now random36) as Hinit.
  cbv zeta in Hinit. destruct Hinit as (Hsid0 & Hproto0 & Hhost0).
  destruct (run_inv (init protocol0 host0 form0 button0 status0 now random36) evs)
    as [(Hsid & Hproto & Hhost) Hinv].
  specialize (Hinv (init_inv _ _ _ _ _ _ _)). fold s in Hsid, Hproto, Hhost, Hinv.
  assert (Hs : sessionId (vars s) = sid) by (now rewrite Hsid, Hsid0).
  assert (Hcalls : Forall (tagged_with protocol0 host0 sid) (calls (env s))).
  { eapply Forall_impl; [exact (inv_calls _ Hinv)|].
    intros [h url| h | path body | href]; simpl; unfold wsUrl, scheme;
      rewrite ?Hs, ?Hproto, ?Hhost, ?Hproto0, ?Hhost0; auto. }
  split; [exact Hs|]. split; [exact Hcalls|].
  unfold run_sessions. induction Hcalls as [|c l Hc _ IH]; simpl; [constructor|].
  destruct c; simpl in *; auto.
Qed.

(** * The progress log *)







(** * The progress bar *)

(** The declared width keeps the order of two percentages that the setter
    accepts. *)
Lemma abs_keeps_order (p q : float) :
  (0 <=? p)%float = true -> (p <? q)%float = true ->
  (abs p <? abs q)%float = true.
Proof.
  rewrite leb_spec, !ltb_spec, !abs_spec.
  change (Prim2SF 0) with (S754_zero false).
  destruct (Prim2SF p) as [[]|[]| |[] m e], (Prim2SF q) as [[]|[]| |[] m' e'];
    simpl; intros; try discriminate; try assumption; try reflexivity.
Qed.

(** The declared width of a positive percentage is the percentage itself. *)
Lemma abs_of_positive (p : float) : (0 <? p)%float = true -> abs p = p.
Proof.
  intros Hp.
  assert (H : Prim2SF (abs p) = Prim2SF p).
  { rewrite abs_spec. revert Hp. rewrite ltb_spec.
    change (Prim2SF 0) with (S754_zero false).
    destruct (Prim2SF p) as [[]|[]| |[] m e]; simpl; intros; try discriminate; reflexivity. }
  apply (f_equal SF2Prim) in H. now rewrite !SF2Prim_Prim2SF in H.
Qed.

Lemma positive_is_not_negative (p : float) : (0 <? p)%float = true -> (0 <=? p)%float = true.
Proof.
  rewrite ltb_spec, leb_spec. change (Prim2SF 0) with (S754_zero false).
  destruct (Prim2SF p) as [[]|[]| |[] m e]; simpl; intros; try discriminate; reflexivity.
Qed.

(** What a progress message does when the lookup finds the script's bar or
    none, whatever the bar showed before. *)
Lemma step_progress_update (s : State) (h : nat) (current total : float)
    (text now : string) (found : Found) :
  is_open s h = true ->
  finds_own_bar found s = true ->
  let s' := step s (Ws_message h (progress_update current total text) now found) in
  analysisProgressBar (progress s') =
    Some {| fill_width := set_style_width (percentage current total) (displayed_percentage s);
            text_content := Some (text, current, total) |} /\
  uncaught (env s') = uncaught (env s) /\
  displayed_texts s' = displayed_texts s /\
  is_open s' h = true.
Proof.
  intros Hopen Hown s'. subst s'. unfold step. rewrite dispatch_Ws_message, Hopen.
  unfold is_open, readyState_of in *.
  destruct_state s. unfold finds_own_bar, displayed_percentage, displayed_texts in *.
  cbn [progress env progressContainer items notifications analysisProgressBar sockets] in *.
  exec. unfold displayed_texts.
  cbn [progress env progressContainer items notifications analysisProgressBar sockets].
  destruct found as [|has_fill has_text].
  - destruct (existsb has_markup _); destruct bar; repeat apply conj; try reflexivity;
      exact Hopen.
  - apply negb_true_iff in Hown. rewrite Hown.
    destruct bar; repeat apply conj; try reflexivity; exact Hopen.
Qed.

(** When the lookup finds an element that markup put into the document and
    that lacks the fill or the text, the handler throws a [TypeError] and
    the script's bar is as it was. *)
Lemma progress_update_on_foreign_element (s : State) (h : nat) (current total : float)
    (text now : string) (has_fill has_text : bool) :
  is_open s h = true ->
  existsb has_markup (displayed_texts s) = true ->
  has_fill && has_text = false ->
  let s' := step s (Ws_message h (progress_update current total text) now
                               (foreign_bar has_fill has_text)) in
  analysisProgressBar (progress s') = analysisProgressBar (progress s) /\
  exists e, uncaught (env s') = uncaught (env s) ++ [e] /\ err_name e = "TypeError".
Proof.
  intros Hopen Hmark Hlack s'. subst s'. unfold step. rewrite dispatch_Ws_message, Hopen.
  destruct_state s. unfold displayed_texts in *.
  cbn [progress env progressContainer items notifications] in *.
  exec. unfold displayed_texts.
  cbn [progress env progressContainer items notifications]. rewrite Hmark.
  destruct has_fill, has_text; try discriminate; (split; [reflexivity|]);
    eexists; split; reflexivity.
Qed.

(** C8, counterexample.  After progress 2 of 2 the bar shows 100.  A next
    message with a smaller current, 1 of 1, shows 100 again, not less; so
    does, with one same total, 9007199254740991 of 3 after
    9007199254740992 of 3, as both quotients round to the same number.  And
    a next message -1 of 2 does not overwrite the bar with -50: the setter
    drops the negative width and the bar still shows 100; 0 of 0 and 1 of 0,
    which give [NaN] and [Infinity], are dropped likewise. *)
Lemma smaller_current_same_percentage :
  displayed_percentage demo_progress_full = Some 100%float /\
  displayed_percentage
    (step demo_progress_full
          (Ws_message 0 (progress_update 1 1 "Processing") "10:00:03" own_bar))
    = Some 100%float /\
  (1 <? 2)%float = true /\
  displayed_percentage
    (step demo_connected
          (Ws_message 0 (progress_update 9007199254740992 3 "Processing") "10:00:02" own_bar))
  = displayed_percentage
    (step demo_connected
          (Ws_message 0 (progress_update 9007199254740991 3 "Processing") "10:00:02" own_bar)) /\
  (9007199254740991 <? 9007199254740992)%float = true /\
  percentage (-1) 2 = (-50)%float /\
  displayed_percentage
    (step demo_progress_full
          (Ws_message 0 (progress_update (-1) 2 "Processing") "10:00:03" own_bar))
    = Some 100%float /\
  displayed_percentage
    (step demo_progress_full
          (Ws_message 0 (progress_update 0 0 "Processing") "10:00:03" own_bar))
    = Some 100%float /\
  displayed_percentage
    (step demo_progress_full
          (Ws_message 0 (progress_update 1 0 "Processing") "10:00:03" own_bar))
    = Some 100%float.
Proof. vm_compute. repeat split. Qed.

(** C8, as amended.  A progress message is delivered on an open socket and
    the lookup of the bar finds the script's own, or none.  When
    (current / total) * 100, computed in double precision, is finite and not
    negative, the width of the fill is overwritten with exactly that number
    (with 0 for the negative zero, whose rendering is 0); otherwise the
    setter drops it and the bar keeps the width it had.  The width shown
    before is not consulted and the number is not clamped (3 of 2 shows
    150).  So of two messages in a row, whenever the second gives a
    percentage that is not negative and is smaller than the finite
    percentage of the first, the bar regresses, strictly.  Nothing is
    thrown. *)
Theorem progress_bar_overwritten_unguarded
    (s : State) (h : nat) (current1 total1 current2 total2 : float)
    (text1 text2 now1 now2 : string) (found1 found2 : Found) :
  is_open s h = true ->
  finds_own_bar found1 s = true ->
  finds_own_bar found2 s = true ->
  let p1 := percentage current1 total1 in
  let p2 := percentage current2 total2 in
  let s1 := step s (Ws_message h (progress_update current1 total1 text1) now1 found1) in
  let s2 := step s1 (Ws_message h (progress_update current2 total2 text2) now2 found2) in
  displayed_percentage s1 =
    (if ((0 <=? p1) && (p1 <? infinity))%float then Some (abs p1)
     else displayed_percentage s) /\
  displayed_percentage s2 =
    (if ((0 <=? p2) && (p2 <? infinity))%float then Some (abs p2)
     else displayed_percentage s1) /\
  ((0 <? p1)%float = true -> (p1 <? infinity)%float = true ->
   displayed_percentage s1 = Some p1) /\
  percentage 3 2 = 150%float /\
  ((0 <=? p2)%float = true -> (p2 <? p1)%float = true -> (p1 <? infinity)%float = true ->
   exists shown1 shown2,
     displayed_percentage s1 = Some shown1 /\
     displayed_percentage s2 = Some shown2 /\
     (shown2 <? shown1)%float = true) /\
  uncaught (env s2) = uncaught (env s).
Proof.
  intros Hopen Hown1 Hown2 p1 p2 s1 s2.
  destruct (step_progress_update s h current1 total1 text1 now1 found1 Hopen Hown1)
    as (Hbar1 & Hunc1 & Htexts & Hopen1).
  fold s1 in Hbar1, Hunc1, Htexts, Hopen1.
  assert (Hown2' : finds_own_bar found2 s1 = true).
  { unfold finds_own_bar in *. now rewrite Htexts. }
  destruct (step_progress_update s1 h current2 total2 text2 now2 found2 Hopen1 Hown2')
    as (Hbar2 & Hunc2 & _).
  fold s2 in Hbar2, Hunc2.
  assert (H1 : displayed_percentage s1 =
               (if ((0 <=? p1) && (p1 <? infinity))%float then Some (abs p1)
                else displayed_percentage s)).
  { unfold displayed_percentage at 1. now rewrite Hbar1. }
  assert (H2 : displayed_percentage s2 =
               (if ((0 <=? p2) && (p2 <? infinity))%float then Some (abs p2)
                else displayed_percentage s1)).
  { unfold displayed_percentage at 1. now rewrite Hbar2. }
  split; [exact H1|]. split; [exact H2|].
  split.
  { intros Hpos Hfin. rewrite H1, (positive_is_not_negative _ Hpos), Hfin. simpl.
    now rewrite abs_of_positive. }
  split; [vm_compute; reflexivity|].
  split; [|congruence].
  intros Hpos Hless Hfin.
  assert (Hfin2 : (p2 <? infinity)%float = true).
  { revert Hless Hfin. rewrite !ltb_spec.
    change (Prim2SF infinity) with (S754_infinity false).
    destruct (Prim2SF p2) as [[]|[]| |[] m e], (Prim2SF p1) as [[]|[]| |[] m' e'];
      simpl; intros; try discriminate; try reflexivity. }
  assert (Hpos1 : (0 <=? p1)%float = true).
  { revert Hpos Hless. rewrite !leb_spec, ltb_spec.
    change (Prim2SF 0) with (S754_zero false).
    destruct (Prim2SF p2) as [[]|[]| |[] m e], (Prim2SF p1) as [[]|[]| |[] m' e'];
      simpl; intros; try discriminate; try reflexivity. }
  exists (abs p1), (abs p2).
  rewrite H2, H1, Hpos, Hfin2, Hpos1, Hfin. simpl.
  split; [reflexivity|]. split; [reflexivity|]. now apply abs_keeps_order.
Qed.

(** Progress 100 of 100, then 99 of 100: the bar shows 100, then 99. *)
Lemma progress_bar_overwritten_unguarded_witness :
  let s1 := step demo_connected
              (Ws_message 0 (progress_update 100 100 "Processing") "10:00:02" own_bar) in
  let s2 := step s1 (Ws_message 0 (progress_update 99 100 "Processing") "10:00:03" own_bar) in
  displayed_percentage s1 = Some 100%float /\
  displayed_percentage s2 = Some 99%float.
Proof.
  destruct (progress_bar_overwritten_unguarded demo_connected 0 100 100 99 100
              "Processing" "Processing" "10:00:02" "10:00:03" own_bar own_bar
              eq_refl eq_refl eq_refl)
    as (H1 & H2 & _).
  split; [exact H1 | exact H2].
Defined.

Lemma filter_some_checked (boxes : list Checkbox) :
  Exists (fun cb => cb_checked cb = true) boxes ->
  (length (map cb_value (List.filter cb_checked boxes)) =? 0) = false.
Proof.
  induction 1 as [cb boxes Hcb | cb boxes _ IH]; simpl.
  - now rewrite Hcb.
  - destruct (cb_checked cb); [reflexivity | exact IH].
Qed.

(** C9. A run requested from Idle with a non-blank location that is not
    Narayanganj (whatever the case of its letters) and with an analysis kind
    ticked: the location field is overwritten with "Narayanganj", the warning
    notification is shown, and the run starts; the request that is sent
    carries "Narayanganj" as its location. *)
Theorem runAnalysis_corrects_unsupported_location (s : State) :
  lifecycle s = Idle ->
  trim (location_value (form s)) <> "" ->
  some_selected s ->
  toLowerCase (trim (location_value (form s))) <> "narayanganj" ->
  let s' := final (runAnalysis s) in
  returns (runAnalysis s) = true /\
  location_value (form s') = "Narayanganj" /\
  notifications (env s') = notifications (env s) ++ [unsupported_location_notification] /\
  calls (env s') =
    calls (env s) ++
    [WsNew (length (sockets (env s))) (wsUrl s);
     Fetch "/run-analysis"
       {| location := "Narayanganj"; analyses := selected_kinds s;
          session_id := sessionId (vars s) |}] /\
  pendingFetch (env s') = S (pendingFetch (env s)) /\
  lifecycle s' = Running.
Proof.
  intros Hidle Hloc Hsel Hother.
  apply lifecycle_Idle in Hidle. apply String.eqb_neq in Hloc, Hother.
  apply filter_some_checked in Hsel.
  unfold runAnalysis, bind, read. rewrite Hidle. cbv zeta. rewrite Hloc, Hsel, Hother.
  destruct_state s. simpl. rewrite <- app_assoc. repeat split; reflexivity.
Qed.

(** "Dhaka" is typed into the location field before the run is requested. *)
Lemma runAnalysis_corrects_unsupported_location_witness :
  let s := run demo_page [Input_location "Dhaka"; Change_checkbox 1] in
  location_value (form s) = "Dhaka" /\
  location_value (form (final (runAnalysis s))) = "Narayanganj" /\
  calls (env (final (runAnalysis s))) =
    [WsNew 0 "ws://localhost:8000/ws/session_1700000000000_k3j9x0q1z";
     Fetch "/run-analysis"
       {| location := "Narayanganj"; analyses := ["heat"];
          session_id := "session_1700000000000_k3j9x0q1z" |}].
Proof.
  intros s. split; [reflexivity|].
  assert (H := runAnalysis_corrects_unsupported_location s).
  destruct H as (_ & Hvalue & _ & Hcalls & _).
  - reflexivity.
  - discriminate.
  - right. left. reflexivity.
  - discriminate.
  - split; [exact Hvalue | exact Hcalls].
Defined.

(** * Item-completed before run-started *)

#[local] Instance Rquiet_preorder : PreOrder Rquiet.
Proof.
  split.
  - intros s. reflexivity.
  - intros s1 s2 s3 H12 H23. unfold Rquiet in *. congruence.
Qed.

Ltac quiet_leaf :=
  idtac;
  lazymatch goal with
  | |- Rquiet ?s _ =>
      destruct_state s; unfold Rquiet, handled_start; simpl;
      rewrite ?existsb_snoc; simpl; rewrite ?orb_false_r; reflexivity
  end.

Ltac quiet_known :=
  idtac;
  first [ solve [auto with quiet]
        | lazymatch goal with
          | |- keeps _ ?m _ => let h := head_of m in unfold h
          end; walk quiet_leaf quiet_known ].

Create HintDb quiet discriminated.

Lemma run_listeners_quiet ls s : keeps Rquiet (run_listeners ls) s.
Proof.
  revert s. induction ls as [|l ls IH]; intros s; simpl.
  - refine (keeps_ret _ _ _).
  - refine (keeps_bind _ _ _ _ _ _); [destruct l; simpl; walk quiet_leaf quiet_known | auto].
Qed.
#[local] Hint Resolve run_listeners_quiet : quiet.

(** Only a run-started message that is handled leaves its mark. *)
Lemma step_quiet s ev : is_start_event ev = false -> Rquiet s (step s ev).
Proof.
  intros Hev. refine (keeps_step _ _ _ _ _).
  - destruct ev as [| | | | | | |h m now| | | | |]; unfold dispatch;
      try solve [walk quiet_leaf quiet_known].
    destruct m; try discriminate; walk quiet_leaf quiet_known.
  - intros e s'. quiet_leaf.
Qed.

(** No run-started message among the events: none was handled. *)
Lemma no_start_event_none_handled (s : State) (evs : list Event) :
  forallb (fun ev => negb (is_start_event ev)) evs = true ->
  handled_start (run s evs) = handled_start s.
Proof.
  revert s. induction evs as [|ev evs IH]; intros s Hevs; simpl in *; [reflexivity|].
  apply andb_true_iff in Hevs as [Hev Hevs]. apply negb_true_iff in Hev.
  rewrite (IH _ Hevs). apply step_quiet, Hev.
Qed.

(** C10.  An item-completed message delivered on an open socket.  If no
    run-started message was handled since the page loaded, the in-flight
    entry reference is still undefined, [markProgressAsCompleted] throws a
    TypeError instead of returning, and the event loop reports it uncaught;
    the progress items are untouched.  If one was handled, the reference is
    defined, the handler returns and nothing is reported.  So the handler is
    safe exactly when a run-started message came first. *)
Theorem item_completed_needs_run_started (s : State) (h : nat) (text now : string)
    (found : Found) :
  reachable s ->
  is_open s h = true ->
  let r := handleWebSocketMessage (analysis_complete text) now found s in
  let s' := step s (Ws_message h (analysis_complete text) now found) in
  (handled_start s = false ->
   currentProgressItem (vars s) = None /\
   returns r = false /\
   uncaught (env s') = uncaught (env s) ++ [undefined_entry_error] /\
   progress s' = progress s) /\
  (handled_start s = true ->
   (exists ref, currentProgressItem (vars s) = Some ref /\
                ref < length (items (progress s))) /\
   returns r = true /\
   uncaught (env s') = uncaught (env s)).
Proof.
  intros Hreach Hopen r s'. subst r s'.
  pose proof (reachable_inv s Hreach) as HI.
  pose proof (inv_started _ HI) as Hst. pose proof (inv_current _ HI) as Hcur.
  fold (handled_start s) in Hst.
  unfold step. rewrite dispatch_Ws_message, Hopen.
  destruct_state s. simpl in Hst, Hcur. split; intros Hh; rewrite Hh in Hst.
  - destruct cur as [ref|]; [discriminate|]. simpl. repeat split.
  - destruct cur as [ref|]; [|discriminate]. simpl. repeat split.
    exists ref. split; [reflexivity | now apply Hcur].
Qed.

(** The demo run before and after its first run-started message. *)
Lemma item_completed_needs_run_started_witness :
  returns (handleWebSocketMessage (analysis_complete "Flood map ready") "10:00:03" own_bar
             demo_connected) = false /\
  returns (handleWebSocketMessage (analysis_complete "Flood map ready") "10:00:03" own_bar
             (step demo_connected
                   (Ws_message 0 (analysis_start "Flood map") "10:00:01" own_bar)))
    = true.
Proof.
  split.
  - refine (proj1 (proj2 (proj1 (item_completed_needs_run_started demo_connected 0
      "Flood map ready" "10:00:03" own_bar reachable_demo_connected eq_refl) eq_refl))).
  - refine (proj1 (proj2 (proj2 (item_completed_needs_run_started
      (step demo_connected (Ws_message 0 (analysis_start "Flood map") "10:00:01" own_bar)) 0
      "Flood map ready" "10:00:03" own_bar (reachable_step _ _ reachable_demo_connected) eq_refl)
      eq_refl))).
Defined.

(** * The mode of the page *)

#[local] Instance Rmode_preorder : PreOrder Rmode.
Proof. split; unfold Rmode; [intros s; tauto | intros s1 s2 s3; tauto]. Qed.

Lemma all_checked_count (boxes : list Checkbox) :
  (length (List.filter cb_checked boxes) =? length boxes) = forallb cb_checked boxes.
Proof.
  assert (Hle : forall l : list Checkbox, length (List.filter cb_checked l) <= length l).
  { induction l as [|cb l IH]; simpl; [lia|]. destruct (cb_checked cb); simpl; lia. }
  induction boxes as [|cb boxes IH]; simpl; [reflexivity|].
  destruct (cb_checked cb); simpl; [exact IH|].
  apply Nat.eqb_neq. specialize (Hle boxes). lia.
Qed.

Lemma forallb_checked_disabled (boxes : list Checkbox) b :
  forallb cb_checked (map (set_cb_disabled b) boxes) = forallb cb_checked boxes.
Proof. induction boxes as [|cb boxes IH]; simpl; [reflexivity | now rewrite IH]. Qed.

Lemma forallb_disabled_checked (boxes : list Checkbox) b :
  forallb cb_disabled (map (set_cb_checked b) boxes) = forallb cb_disabled boxes.
Proof. induction boxes as [|cb boxes IH]; simpl; [reflexivity | now rewrite IH]. Qed.

Lemma forallb_disabled_all (boxes : list Checkbox) :
  forallb cb_disabled (map (set_cb_disabled true) boxes) = true.
Proof. induction boxes as [|cb boxes IH]; simpl; [reflexivity | exact IH]. Qed.

Lemma forallb_checked_all (boxes : list Checkbox) b :
  forallb cb_checked (map (set_cb_checked b) boxes) = b || match boxes with [] => true | _ => false end.
Proof.
  induction boxes as [|cb boxes IH]; simpl; [now rewrite orb_true_r|].
  rewrite IH. destruct b, boxes; reflexivity.
Qed.

Lemma forallb_disabled_toggle (boxes : list Checkbox) i :
  forallb cb_disabled (alter toggle_checked i boxes) = forallb cb_disabled boxes.
Proof.
  revert i. induction boxes as [|cb boxes IH]; intros [|i]; simpl; try reflexivity.
  f_equal. apply IH.
Qed.

(** A statement that leaves alone what the invariant speaks about. *)
Lemma Rmode_frame s s' :
  vars s' = vars s -> form s' = form s ->
  btn_listeners (button s') = btn_listeners (button s) ->
  btn_disabled (button s') = btn_disabled (button s) ->
  Rmode s s'.
Proof.
  intros Hv Hf Hl Hd [H1 H2 H3 H4 H5 H6 H7 H8 H9].
  constructor; rewrite ?Hv, ?Hf, ?Hl, ?Hd; assumption.
Qed.

(** Opens a state down to the fields of the form and of the button. *)
Ltac destruct_page s :=
  destruct_state s;
  match goal with fm : Form |- _ => destruct fm as [loc locd boxes sad sal sat] end;
  match goal with btn : ActionBtn |- _ => destruct btn as [bd bt bl br btl btd bld] end.

Ltac mode_leaf :=
  idtac;
  first
    [ apply Rmode_frame; reflexivity
    | lazymatch goal with
      | |- Rmode ?s _ =>
          let H := fresh in
          intros H; destruct_page s; destruct H; constructor; simpl in *;
          rewrite ?forallb_checked_disabled, ?forallb_disabled_checked; auto; congruence
      end ].

Create HintDb mode discriminated.

Ltac mode_known :=
  idtac;
  lazymatch goal with
  | |- keeps _ ?m _ =>
      first [ solve [auto with mode]
            | let h := head_of m in unfold h; walk mode_leaf mode_known ]
  end.

(** Runs a handler on an opened state and splits on what it tests. *)
Ltac mode_direct s :=
  let H := fresh "HI" in
  unfold keeps; intros H; destruct_page s; destruct H; simpl in *; exec;
  repeat match goal with
    | |- context [if ?b then _ else _] => destruct b eqn:?
    | |- context [match ?x with Some _ => _ | None => _ end] => destruct x eqn:?
    end.

Lemma updateSelectAllButton_mode s :
  Mode_inv (final (updateSelectAllButton s)) <->
  (btn_listeners (button s) = [mode_listener (buttonMode (vars s))] /\
   (isAnalyzing (vars s) = true ->
    buttonMode (vars s) = analysis /\ defined (websocket (vars s)) = true /\
    btn_disabled (button s) = true /\ location_disabled (form s) = true /\
    selectAll_disabled (form s) = true /\ forallb cb_disabled (checkboxes (form s)) = true)).
Proof.
  destruct_page s. exec. rewrite all_checked_count.
  destruct (forallb cb_checked boxes) eqn:E; simpl; split.
  all: try (intros [H1 H2 H3 H4 H5 H6 H7 H8 H9]; simpl in *; tauto).
  all: intros [H1 H2]; constructor; simpl; try tauto; auto.
Qed.

Ltac mode_close :=
  repeat match goal with
    | H : context [length (List.filter cb_checked ?l) =? length ?l] |- _ =>
        rewrite all_checked_count in H
    end;
  subst; constructor; simpl in *;
  rewrite ?forallb_checked_disabled, ?forallb_disabled_checked, ?forallb_disabled_all,
          ?all_checked_count, ?forallb_disabled_toggle;
  try reflexivity; try discriminate; try congruence; auto;
  try match goal with m : ButtonMode |- _ => destruct m; (reflexivity || discriminate) end.

Lemma updateSelectAllButton_keeps s : keeps Rmode updateSelectAllButton s.
Proof.
  intros HI. apply updateSelectAllButton_mode. destruct HI. split; [assumption|].
  intros Hrun. repeat split; auto.
Qed.
#[local] Hint Resolve updateSelectAllButton_keeps : mode.

Lemma updateRunAnalysisButton_keeps s : keeps Rmode updateRunAnalysisButton s.
Proof. mode_direct s; mode_close. Qed.
#[local] Hint Resolve updateRunAnalysisButton_keeps : mode.

Lemma showNotification_keeps m t s : keeps Rmode (showNotification m t) s.
Proof. unfold showNotification. walk mode_leaf mode_known. Qed.
#[local] Hint Resolve showNotification_keeps : mode.

Lemma resetForm_keeps s : keeps Rmode resetForm s.
Proof.
  mode_direct s; mode_close.
Qed.
#[local] Hint Resolve resetForm_keeps : mode.

Lemma handleAnalysisComplete_keeps m r s : keeps Rmode (handleAnalysisComplete m r) s.
Proof. mode_direct s; mode_close. Qed.
#[local] Hint Resolve handleAnalysisComplete_keeps : mode.

Lemma toggleSelectAll_keeps s : keeps Rmode toggleSelectAll s.
Proof. mode_direct s; mode_close. Qed.
#[local] Hint Resolve toggleSelectAll_keeps : mode.

Lemma startAnalysis_keeps sel s :
  buttonMode (vars s) = analysis -> keeps Rmode (startAnalysis sel) s.
Proof. intros Hmode. mode_direct s; mode_close. Qed.

Lemma runAnalysis_keeps s : keeps Rmode runAnalysis s.
Proof.
  mode_direct s; mode_close.
  all: intros _; destruct analyzing, mode; (reflexivity || discriminate).
Qed.
#[local] Hint Resolve runAnalysis_keeps : mode.

Lemma handleWebSocketMessage_keeps m now f s :
  keeps Rmode (handleWebSocketMessage m now f) s.
Proof. unfold handleWebSocketMessage. walk mode_leaf mode_known. Qed.
#[local] Hint Resolve handleWebSocketMessage_keeps : mode.

Lemma startAnalysis_catch_keeps e s : keeps Rmode (startAnalysis_catch e) s.
Proof. unfold startAnalysis_catch. walk mode_leaf mode_known. Qed.
#[local] Hint Resolve startAnalysis_catch_keeps : mode.

Lemma run_listeners_keeps ls s : keeps Rmode (run_listeners ls) s.
Proof.
  revert s. induction ls as [|l ls IH]; intros s; simpl.
  - refine (keeps_ret _ _ _).
  - refine (keeps_bind _ _ _ _ _ _); [destruct l; simpl; walk mode_leaf mode_known | auto].
Qed.
#[local] Hint Resolve run_listeners_keeps : mode.

Lemma change_checkbox_keeps i s :
  keeps Rmode
    (update (with_form (fun f => set_checkboxes (alter toggle_checked i (checkboxes f)) f)) ;;
     updateSelectAllButton ;; updateRunAnalysisButton) s.
Proof. mode_direct s; mode_close. Qed.

Lemma dispatch_keeps ev s : keeps Rmode (dispatch ev) s.
Proof.
  destruct ev; unfold dispatch; try solve [walk mode_leaf mode_known].
  refine (keeps_bind_read _ _ _ _ _). cbv beta.
  destruct (checkboxes (form s) !! i) as [cb|]; [|refine (keeps_ret _ _ _)].
  destruct (cb_disabled cb); [refine (keeps_ret _ _ _) | apply change_checkbox_keeps].
Qed.

(** Every turn of the event loop keeps the mode of the page consistent. *)
Lemma step_mode s ev : Rmode s (step s ev).
Proof. refine (keeps_step _ _ _ (dispatch_keeps ev s) _). intros e s'. mode_leaf. Qed.

Lemma init_mode protocol0 host0 form0 button0 status0 now random36 :
  btn_listeners button0 = [] ->
  Mode_inv (init protocol0 host0 form0 button0 status0 now random36).
Proof.
  intros Hl. destruct form0 as [loc locd boxes sad sal sat].
  destruct button0 as [bd bt bl br btl btd bld]. simpl in Hl. subst bl.
  unfold init. exec. rewrite all_checked_count.
  destruct (forallb cb_checked boxes) eqn:E;
    destruct (negb (0 <? String.length (trim loc)) && negb (existsb cb_checked boxes));
    destruct (negb (0 <? String.length (trim loc)));
    destruct (negb (existsb cb_checked boxes));
    constructor; simpl; auto; discriminate.
Qed.

Lemma reachable_mode s : reachable s -> Mode_inv s.
Proof.
  induction 1 as [| s ev _ IH]; [now apply init_mode | now apply step_mode].
Qed.

(** The action button never both submits and navigates: in every reachable
    state it has exactly one click listener, [runAnalysis] in mode
    'analysis' and [showResults] in mode 'results'. *)
Theorem action_button_has_the_listener_of_its_mode (s : State) :
  reachable s ->
  btn_listeners (button s) = [mode_listener (buttonMode (vars s))] /\
  (lifecycle s = ResultsReady -> btn_listeners (button s) = [L_showResults]) /\
  (lifecycle s <> ResultsReady -> btn_listeners (button s) = [L_runAnalysis]).
Proof.
  intros HI%reachable_mode. pose proof (mi_listeners _ HI) as Hl.
  pose proof (mi_mode _ HI) as Hm. split; [exact Hl|]. rewrite Hl. unfold lifecycle.
  destruct (isAnalyzing (vars s)).
  - rewrite (Hm eq_refl). split; [discriminate | reflexivity].
  - destruct (buttonMode (vars s)); simpl; split; congruence.
Qed.

Lemma action_button_has_the_listener_of_its_mode_witness :
  btn_listeners (button demo_finished) = [L_showResults] /\
  btn_listeners (button demo_running) = [L_runAnalysis].
Proof.
  split.
  - exact (proj1 (proj2 (action_button_has_the_listener_of_its_mode demo_finished
                           reachable_demo_finished)) eq_refl).
  - refine (proj2 (proj2 (action_button_has_the_listener_of_its_mode demo_running
                           reachable_demo_running)) _). discriminate.
Defined.

Lemma mode_locked (s : State) :
  Mode_inv s -> isAnalyzing (vars s) = true ->
  btn_disabled (button s) = true /\
  location_disabled (form s) = true /\
  selectAll_disabled (form s) = true /\
  Forall (fun cb => cb_disabled cb = true) (checkboxes (form s)).
Proof.
  intros HI Hrun.
  split; [exact (mi_button _ HI Hrun)|]. split; [exact (mi_location _ HI Hrun)|].
  split; [exact (mi_selectAll _ HI Hrun)|].
  apply Forall_forall. intros cb Hcb%list_elem_of_In.
  pose proof (mi_checkboxes _ HI Hrun) as Hall. rewrite forallb_forall in Hall. auto.
Qed.

(** While a run is on, in every reachable state: the controller holds a
    socket, and the action button, the location field, the select-all
    button and every checkbox are disabled. *)
Theorem running_page_is_locked (s : State) :
  reachable s ->
  lifecycle s = Running ->
  (exists h, websocket (vars s) = Some h /\ h < length (sockets (env s))) /\
  btn_disabled (button s) = true /\
  location_disabled (form s) = true /\
  selectAll_disabled (form s) = true /\
  Forall (fun cb => cb_disabled cb = true) (checkboxes (form s)).
Proof.
  intros Hreach Hrun%lifecycle_Running. pose proof (reachable_mode s Hreach) as HI.
  split.
  - pose proof (mi_held _ HI Hrun) as Hheld.
    destruct (websocket (vars s)) as [h|] eqn:E; [|discriminate].
    exists h. split; [reflexivity|]. exact (inv_websocket _ (reachable_inv s Hreach) h E).
  - exact (mode_locked s HI Hrun).
Qed.

Lemma running_page_is_locked_witness :
  websocket (vars demo_connected) = Some 0 /\ btn_disabled (button demo_connected) = true.
Proof.
  destruct (running_page_is_locked demo_connected reachable_demo_connected eq_refl)
    as ((h & Hh & _) & Hb & _).
  split; [reflexivity | exact Hb].
Defined.

(** * What the user can do *)

Lemma bind_ret_tt (m : M unit) (s : State) : bind m (fun _ => ret tt) s = m s.
Proof. unfold bind, ret. destruct (m s) as [[] s'|e s']; reflexivity. Qed.

(** While a run is on, nothing the user does changes the page: clicks on
    the two buttons, typing in the location field, ticking a box and both
    keyboard shortcuts leave every reachable Running state as it is.  So a
    second run cannot be started before the first one ends. *)
Theorem user_events_are_ignored_while_Running (s : State) (ev : Event) :
  reachable s ->
  lifecycle s = Running ->
  is_user_event ev = true ->
  step s ev = s.
Proof.
  intros Hreach Hrun Hev.
  apply lifecycle_Running in Hrun.
  destruct (mode_locked s (reachable_mode s Hreach) Hrun) as (Hb & Hloc & Hsel & Hboxes).
  unfold step, dispatch, bind at 1, read at 1.
  destruct ev as [| |v|i| |focused| | | | | | |]; try discriminate.
  - now rewrite Hb.
  - now rewrite Hsel.
  - now rewrite Hloc.
  - destruct (checkboxes (form s) !! i) as [cb|] eqn:E; [|reflexivity].
    rewrite Forall_lookup in Hboxes. now rewrite (Hboxes i cb E).
  - rewrite Hb. reflexivity.
  - rewrite Hrun. destruct focused; reflexivity.
Qed.

Lemma user_events_are_ignored_while_Running_witness :
  step demo_connected Click_runAnalysisBtn = demo_connected /\
  step demo_connected (Change_checkbox 1) = demo_connected /\
  step demo_connected (Key_ctrlA false) = demo_connected.
Proof.
  split; [|split];
    apply (user_events_are_ignored_while_Running demo_connected);
    solve [exact reachable_demo_connected | reflexivity].
Defined.

Lemma dispatch_click (s : State) :
  dispatch Click_runAnalysisBtn s =
  if btn_disabled (button s) then Done tt s else run_listeners (btn_listeners (button s)) s.
Proof. unfold dispatch, bind, read. destruct (btn_disabled (button s)); reflexivity. Qed.

Lemma dispatch_ctrl_enter (s : State) :
  dispatch Key_ctrlEnter s =
  if negb (btn_disabled (button s)) && negb (isAnalyzing (vars s))
  then (if is_results (buttonMode (vars s)) then showResults else runAnalysis) s
  else Done tt s.
Proof.
  unfold dispatch, bind, read, when.
  destruct (negb (btn_disabled (button s)) && negb (isAnalyzing (vars s))); reflexivity.
Qed.

(** The keyboard shortcut Ctrl+Enter does exactly what a click on the
    action button does, in every reachable state: nothing when the button
    is disabled, [showResults] when the results are ready, [runAnalysis]
    otherwise. *)
Theorem ctrl_enter_is_a_click (s : State) :
  reachable s ->
  step s Key_ctrlEnter = step s Click_runAnalysisBtn.
Proof.
  intros HI%reachable_mode.
  pose proof (mi_listeners _ HI) as Hl. pose proof (mi_button _ HI) as Hb.
  unfold step. rewrite dispatch_click, dispatch_ctrl_enter, Hl.
  destruct (btn_disabled (button s)); [reflexivity|].
  destruct (isAnalyzing (vars s)); [discriminate (Hb eq_refl)|].
  simpl. rewrite bind_ret_tt. destruct (buttonMode (vars s)); reflexivity.
Qed.

Lemma ctrl_enter_is_a_click_witness :
  step demo_finished Key_ctrlEnter = step demo_finished Click_runAnalysisBtn /\
  calls (env (step demo_finished Key_ctrlEnter)) =
    calls (env demo_finished) ++
    [Navigate "/results-viewer?session=session_1700000000000_k3j9x0q1z"].
Proof.
  split; [exact (ctrl_enter_is_a_click demo_finished reachable_demo_finished)|].
  reflexivity.
Defined.

(** The select-all button tells the truth: in every reachable state
    [allSelected] holds exactly when every checkbox is ticked, and the
    caption is 'Deselect All' then and 'Select All' otherwise.  On a page
    without checkboxes it reads 'Deselect All'. *)
Theorem select_all_button_reflects_the_checkboxes (s : State) :
  reachable s ->
  allSelected (vars s) = forallb cb_checked (checkboxes (form s)) /\
  caption (selectAll_label (form s)) =
    select_all_caption (forallb cb_checked (checkboxes (form s))) /\
  (checkboxes (form s) = [] -> caption (selectAll_label (form s)) = "Deselect All").
Proof.
  intros HI%reachable_mode. pose proof (mi_allSelected _ HI) as Ha.
  pose proof (mi_caption _ HI) as Hc. rewrite Ha in Hc.
  split; [exact Ha|]. split; [exact Hc|]. intros Hnone. rewrite Hc, Hnone. reflexivity.
Qed.

Lemma select_all_button_reflects_the_checkboxes_witness :
  caption (selectAll_label (form (run demo_page [Change_checkbox 0; Change_checkbox 1]))) =
    "Deselect All" /\
  caption (selectAll_label (form (run demo_page [Change_checkbox 0]))) = "Select All".
Proof.
  split.
  - exact (proj1 (proj2 (select_all_button_reflects_the_checkboxes _
             (reachable_run demo_page [Change_checkbox 0; Change_checkbox 1]
                reachable_demo_page)))).
  - exact (proj1 (proj2 (select_all_button_reflects_the_checkboxes _
             (reachable_run demo_page [Change_checkbox 0] reachable_demo_page)))).
Defined.

(** * Select-all and the start of a run *)

(** A click on the select-all button that is not ignored: every checkbox
    is ticked, unless every one was ticked already, and then every one is
    unticked; the action button is enabled exactly when the form is then
    complete; one 150 ms timer is scheduled to undo the visual feedback. *)
Theorem select_all_ticks_or_unticks_every_box (s : State) :
  reachable s ->
  lifecycle s <> Running ->
  let s' := final (toggleSelectAll s) in
  returns (toggleSelectAll s) = true /\
  checkboxes (form s') =
    map (set_cb_checked (negb (forallb cb_checked (checkboxes (form s)))))
        (checkboxes (form s)) /\
  btn_disabled (button s') = negb (canRun s') /\
  timers (env s') = timers (env s) ++ [unscale_timer] /\
  location_value (form s') = location_value (form s) /\
  calls (env s') = calls (env s).
Proof.
  intros HI%reachable_mode Hrun. pose proof (mi_allSelected _ HI) as Hall.
  assert (Han : isAnalyzing (vars s) = false).
  { destruct (isAnalyzing (vars s)) eqn:E; [|reflexivity].
    exfalso. apply Hrun. now apply lifecycle_Running. }
  clear HI Hrun. destruct_page s. simpl in Hall, Han. subst allSel analyzing.
  unfold canRun. exec.
  destruct (length _ =? length _);
    destruct (0 <? String.length (trim loc)) eqn:Hloc;
    destruct (existsb cb_checked _) eqn:Hsel; simpl; rewrite ?Hloc, ?Hsel;
    repeat split.
Qed.

Lemma select_all_ticks_or_unticks_every_box_witness :
  map cb_checked (checkboxes (form (final (toggleSelectAll demo_page)))) = [true; true] /\
  map cb_checked (checkboxes (form (final (toggleSelectAll
    (final (toggleSelectAll demo_page)))))) = [false; false].
Proof.
  split.
  - refine (f_equal (map cb_checked) (proj1 (proj2
      (select_all_ticks_or_unticks_every_box demo_page reachable_demo_page _)))).
    discriminate.
  - reflexivity.
Defined.

Lemma has_location_spec (x : string) : (0 <? String.length x) = negb (String.eqb x "").
Proof. destruct x; reflexivity. Qed.

Lemma has_selected_spec (boxes : list Checkbox) :
  existsb cb_checked boxes =
  negb (length (map cb_value (List.filter cb_checked boxes)) =? 0).
Proof.
  induction boxes as [|cb boxes IH]; simpl; [reflexivity|].
  destruct (cb_checked cb); simpl; [reflexivity | exact IH].
Qed.

(** The two validations agree: from Idle, [runAnalysis] starts a run
    exactly when [updateRunAnalysisButton] would enable the action button
    (a location that is not blank and a ticked box); otherwise it shows the
    validation notification and the controller stays Idle. *)
Theorem run_starts_exactly_when_the_form_is_complete (s : State) :
  lifecycle s = Idle ->
  let s' := final (runAnalysis s) in
  (canRun s = true -> lifecycle s' = Running /\ pendingFetch (env s') = S (pendingFetch (env s))) /\
  (canRun s = false ->
   lifecycle s' = Idle /\
   notifications (env s') = notifications (env s) ++ [validation_notification] /\
   calls (env s') = calls (env s)).
Proof.
  intros Hidle. pose proof (lifecycle_Idle s Hidle) as Hguard. unfold canRun.
  rewrite has_location_spec, has_selected_spec.
  unfold runAnalysis, bind, read. rewrite Hguard. cbv zeta.
  destruct (String.eqb (trim (location_value (form s))) "") eqn:Hloc;
    destruct (length (map cb_value (List.filter cb_checked (checkboxes (form s)))) =? 0)
      eqn:Hsel;
    cbn [negb andb orb]; (split; intros Hcan; [try discriminate | try discriminate]).
  1-3: destruct s as [v f b t p e]; simpl; repeat split; exact Hidle.
  destruct (negb (String.eqb (toLowerCase (trim (location_value (form s)))) "narayanganj"));
    destruct_state s; split; reflexivity.
Qed.

Lemma run_starts_exactly_when_the_form_is_complete_witness :
  lifecycle (final (runAnalysis demo_typed)) = Running /\
  lifecycle (final (runAnalysis demo_page)) = Idle.
Proof.
  split.
  - exact (proj1 (proj1 (run_starts_exactly_when_the_form_is_complete demo_typed eq_refl)
                    eq_refl)).
  - exact (proj1 (proj2 (run_starts_exactly_when_the_form_is_complete demo_page eq_refl)
                    eq_refl)).
Defined.

Lemma forallb_disabled_Forall (boxes : list Checkbox) :
  Forall (fun cb => cb_disabled cb = true) (map (set_cb_disabled true) boxes).
Proof. induction boxes; simpl; constructor; auto. Qed.

(** [startAnalysis], from any state: the socket is opened first and the
    request is sent second, with the trimmed location, the given kinds and
    the session identifier; no socket is closed; the controller is Running
    and holds the new socket; the form is disabled, the banner asks to hold
    tight, and the progress log and bar of an earlier run are gone from the
    page. *)
Theorem startAnalysis_opens_the_channel_then_submits (s : State) (kinds : list string) :
  let s' := final (startAnalysis kinds s) in
  returns (startAnalysis kinds s) = true /\
  calls (env s') =
    calls (env s) ++
    [WsNew (length (sockets (env s))) (wsUrl s);
     Fetch "/run-analysis"
       {| location := trim (location_value (form s)); analyses := kinds;
          session_id := sessionId (vars s) |}] /\
  websocket (vars s') = Some (length (sockets (env s))) /\
  readyState_of s' (length (sockets (env s))) = Some CONNECTING /\
  lifecycle s' = Running /\
  btn_disabled (button s') = true /\
  location_disabled (form s') = true /\
  selectAll_disabled (form s') = true /\
  Forall (fun cb => cb_disabled cb = true) (checkboxes (form s')) /\
  status_label (status s') = hold_tight_label /\
  status_display (status s') = "flex" /\
  progress_log s' = [] /\
  displayed_percentage s' = None /\
  items (progress s') = items (progress s).
Proof.
  destruct_page s. unfold progress_log, displayed_percentage, readyState_of. simpl.
  rewrite <- app_assoc. rewrite list_lookup_middle by reflexivity.
  repeat split. apply forallb_disabled_Forall.
Qed.

(** A location that is Narayanganj in any letter case, with white space
    around it or not, is accepted as it is: no notification, the field is
    left as typed, and the request carries the typed value, trimmed but not
    put into the canonical spelling. *)
Theorem supported_location_is_sent_as_typed (s : State) :
  lifecycle s = Idle ->
  some_selected s ->
  toLowerCase (trim (location_value (form s))) = "narayanganj" ->
  let s' := final (runAnalysis s) in
  location_value (form s') = location_value (form s) /\
  notifications (env s') = notifications (env s) /\
  calls (env s') =
    calls (env s) ++
    [WsNew (length (sockets (env s))) (wsUrl s);
     Fetch "/run-analysis"
       {| location := trim (location_value (form s)); analyses := selected_kinds s;
          session_id := sessionId (vars s) |}] /\
  lifecycle s' = Running.
Proof.
  intros Hidle Hsel Hloc. apply lifecycle_Idle in Hidle. apply filter_some_checked in Hsel.
  assert (Hne : String.eqb (trim (location_value (form s))) "" = false).
  { destruct (trim (location_value (form s))); [discriminate | reflexivity]. }
  unfold runAnalysis, bind, read. rewrite Hidle. cbv zeta. rewrite Hne, Hsel, Hloc.
  destruct_state s. simpl. rewrite <- app_assoc. repeat split; reflexivity.
Qed.

Lemma supported_location_is_sent_as_typed_witness :
  location_value (form demo_typed) = "  NARAYANGANJ " /\
  calls (env (final (runAnalysis demo_typed))) =
    [WsNew 0 "ws://localhost:8000/ws/session_1700000000000_k3j9x0q1z";
     Fetch "/run-analysis"
       {| location := "NARAYANGANJ"; analyses := ["heat"];
          session_id := "session_1700000000000_k3j9x0q1z" |}].
Proof.
  split; [reflexivity|].
  refine (proj1 (proj2 (proj2 (supported_location_is_sent_as_typed demo_typed eq_refl _ eq_refl)))).
  right. left. reflexivity.
Defined.

(** * Messages and settlements *)

Lemma resetForm_reports_nothing (s : State) :
  uncaught (env (final (resetForm s))) = uncaught (env s) /\
  vars (final (resetForm s)) =
    set_websocket None (set_buttonMode analysis (set_isAnalyzing false (vars s))).
Proof. destruct_page s. exec. split_tests; split; reflexivity. Qed.

(** The fatal-error message, on an open socket, from any state: the text
    the server sent is shown in an error notification, the held socket is
    closed, and the controller ends Idle and usable. *)
Theorem fatal_error_message_resets_to_Idle (s : State) (h : nat) (text now : string)
    (found : Found) :
  is_open s h = true ->
  let s' := step s (Ws_message h (error text) now found) in
  usable_Idle s' /\
  notifications (env s') = notifications (env s) ++ [error_notification text] /\
  calls (env s') = calls (env s) ++ close_held s /\
  (forall h', websocket (vars s) = Some h' -> is_open s' h' = false) /\
  uncaught (env s') = uncaught (env s).
Proof.
  intros Hopen s'. subst s'.
  assert (Hstep : step s (Ws_message h (error text) now found) =
                  final (resetForm (final (showNotification text "error"
                    (with_env (fun e => set_console (console e ++ [LogReceived (error text)]) e) s))))).
  { unfold step. rewrite dispatch_Ws_message, Hopen.
    unfold handleWebSocketMessage. set (reset := resetForm).
    destruct_state s. exec.
    match goal with |- context [reset ?s1] => rewrite (resetForm_returns s1 : reset s1 = _) end.
    reflexivity. }
  rewrite Hstep.
  match goal with |- context [resetForm ?s1] =>
    set (shown := s1); pose proof (resetForm_spec shown) as Hreset end.
  cbv zeta in Hreset.
  destruct Hreset as (_ & Hidle & Hcalls & Hopen' & Hnotes & _).
  assert (Hshown : vars shown = vars s /\ calls (env shown) = calls (env s) /\
                   uncaught (env shown) = uncaught (env s) /\
                   notifications (env shown) = notifications (env s) ++ [error_notification text]).
  { subst shown. destruct_state s. repeat split. }
  destruct Hshown as (Hv & Hc & Hu & Hn).
  split; [exact Hidle|]. split; [now rewrite Hnotes, Hn|].
  split; [rewrite Hcalls, Hc; unfold close_held; now rewrite Hv|].
  split; [intros h' Hh'; apply Hopen'; now rewrite Hv|].
  rewrite <- Hu. apply resetForm_reports_nothing.
Qed.

Lemma fatal_error_message_resets_to_Idle_witness :
  let s' := step demo_connected (Ws_message 0 (error "Worker crashed") "10:00:04" own_bar) in
  lifecycle s' = Idle /\
  notifications (env s') = [error_notification "Worker crashed"] /\
  is_open s' 0 = false.
Proof.
  intros s'.
  destruct (fatal_error_message_resets_to_Idle demo_connected 0 "Worker crashed" "10:00:04"
              own_bar eq_refl) as (Hidle & Hn & _ & Hopen & _).
  split; [exact (idle_lifecycle _ Hidle)|]. split; [exact Hn|].
  exact (Hopen 0 eq_refl).
Defined.

(** A request that succeeds changes nothing but the console: after a 2xx
    response and its JSON body, the page is as it was before the response,
    with one more console line; the controller does not wait for it and does
    not react to it. *)
Theorem successful_submission_is_only_logged (s : State) (status : nat) (text : string) :
  0 < pendingFetch (env s) ->
  ok status = true ->
  step (step s (Fetch_settled (Response status))) (Json_settled (Json text)) =
  logged ("Analysis started: " +:+ text)
         (with_env (set_pendingFetch (pred (pendingFetch (env s)))) s).
Proof.
  intros Hpending Hok. destruct_state s. simpl in Hpending.
  destruct nfetch as [|n]; [lia|].
  unfold step, dispatch, startAnalysis_response, startAnalysis_json, logged.
  exec. rewrite Hok. reflexivity.
Qed.

Lemma successful_submission_is_only_logged_witness :
  lifecycle (step (step demo_connected (Fetch_settled (Response 200)))
                  (Json_settled (Json "{}"))) = Running.
Proof.
  rewrite (successful_submission_is_only_logged demo_connected 200 "{}");
    [reflexivity | vm_compute; lia | reflexivity].
Defined.

(** A 2xx response whose body cannot be read as JSON is a failure like any
    other: the message of the parse error is shown and the form is reset to
    a usable Idle state, the held socket closed. *)
Theorem unreadable_response_body_resets_to_Idle (s : State) (e : JsError) :
  0 < pendingJson (env s) ->
  let s' := step s (Json_settled (JsonError e)) in
  usable_Idle s' /\
  notifications (env s') =
    notifications (env s) ++
    [error_notification ("Error starting analysis: " +:+ err_message e)] /\
  calls (env s') = calls (env s) ++ close_held s /\
  (forall h, websocket (vars s) = Some h -> is_open s' h = false).
Proof.
  intros Hpending s'. subst s'.
  assert (Hstep : step s (Json_settled (JsonError e)) =
    final (resetForm
      (final ((console_error ("Error starting analysis: " +:+ err_message e) ;;
               showNotification ("Error starting analysis: " +:+ err_message e) "error")
              (with_env (set_pendingJson (pred (pendingJson (env s)))) s))))).
  { destruct_state s. simpl in Hpending. destruct njson as [|n]; [lia|].
    unfold step, dispatch, startAnalysis_json, startAnalysis_catch.
    set (reset := resetForm). exec.
    match goal with |- context [reset ?s1] => rewrite (resetForm_returns s1 : reset s1 = _) end.
    reflexivity. }
  rewrite Hstep.
  match goal with |- context [resetForm ?s1] =>
    set (shown := s1); pose proof (resetForm_spec shown) as Hreset end.
  cbv zeta in Hreset.
  destruct Hreset as (_ & Hidle & Hcalls & Hopen & Hnotes & _).
  assert (Hshown : vars shown = vars s /\ calls (env shown) = calls (env s) /\
                   notifications (env shown) = notifications (env s) ++
                     [error_notification ("Error starting analysis: " +:+ err_message e)]).
  { subst shown. destruct_state s. repeat split. }
  destruct Hshown as (Hv & Hc & Hn).
  split; [exact Hidle|]. split; [now rewrite Hnotes, Hn|].
  split; [rewrite Hcalls, Hc; unfold close_held; now rewrite Hv|].
  intros h Hh. apply Hopen. now rewrite Hv.
Qed.

Lemma unreadable_response_body_resets_to_Idle_witness :
  let s' := step (step demo_connected (Fetch_settled (Response 200)))
                 (Json_settled (JsonError {| err_name := "SyntaxError";
                                             err_message := "Unexpected token <" |})) in
  lifecycle s' = Idle /\
  notifications (env s') =
    [error_notification "Error starting analysis: Unexpected token <"].
Proof.
  intros s'.
  destruct (unreadable_response_body_resets_to_Idle
              (step demo_connected (Fetch_settled (Response 200)))
              {| err_name := "SyntaxError"; err_message := "Unexpected token <" |})
    as (Hidle & Hn & _).
  - vm_compute. lia.
  - split; [exact (idle_lifecycle _ Hidle) | exact Hn].
Defined.

(** The run-finished message is not guarded by the state of the
    controller: delivered on an open socket in any state, Idle included, it
    stores the results, closes the socket the controller holds, if any, and
    leaves the page in ResultsReady with the action button enabled and the
    banner counting the results, zero included. *)
Theorem run_finished_is_accepted_in_any_state (s : State) (h : nat) (text : string)
    (done : list string) (now : string) (found : Found) :
  is_open s h = true ->
  let s' := step s (Ws_message h (all_analyses_complete text done) now found) in
  lifecycle s' = ResultsReady /\
  analysisResults (vars s') = done /\
  websocket (vars s') = None /\
  calls (env s') = calls (env s) ++ close_held s /\
  btn_disabled (button s') = false /\
  status_label (status s') =
    {| icon := "check-circle";
       caption := "Analysis complete! " +:+ decimal (length done) +:+ " results ready to view." |}.
Proof.
  intros Hopen s'. subst s'. unfold step. rewrite dispatch_Ws_message, Hopen.
  destruct_state s. unfold close_held. exec.
  destruct ws; simpl; rewrite ?app_nil_r; repeat split.
Qed.

Lemma run_finished_is_accepted_in_any_state_witness :
  lifecycle demo_backend_down = Idle /\
  lifecycle (step (run demo_backend_down [Timer_fire 0; Ws_open 1])
                  (Ws_message 1 (all_analyses_complete "All done" []) "10:00:09" own_bar))
    = ResultsReady.
Proof.
  split; [reflexivity|].
  exact (proj1 (run_finished_is_accepted_in_any_state
                  (run demo_backend_down [Timer_fire 0; Ws_open 1]) 1 "All done" []
                  "10:00:09" own_bar eq_refl)).
Defined.

(** * Viewing the results *)

(** Once the results are ready, a click on the enabled action button
    navigates to the results viewer of the session and does nothing else:
    the variables of the controller, the form and the sockets are as before,
    so the click can be repeated. *)
Theorem view_results_only_navigates (s : State) :
  reachable s ->
  lifecycle s = ResultsReady ->
  btn_disabled (button s) = false ->
  step s Click_runAnalysisBtn =
  called (Navigate (results_url s))
         (logged ("Redirecting to results viewer with session ID: " +:+ sessionId (vars s)) s).
Proof.
  intros Hreach Hready Hb.
  pose proof (mi_listeners _ (reachable_mode s Hreach)) as Hl.
  unfold step. rewrite dispatch_click, Hb, Hl.
  assert (Hm : buttonMode (vars s) = results).
  { unfold lifecycle in Hready. destruct (isAnalyzing (vars s)); [discriminate|].
    destruct (buttonMode (vars s)); [discriminate | reflexivity]. }
  rewrite Hm. destruct_state s. reflexivity.
Qed.

Lemma view_results_only_navigates_witness :
  calls (env (step demo_finished Click_runAnalysisBtn)) =
    calls (env demo_finished) ++
    [Navigate "/results-viewer?session=session_1700000000000_k3j9x0q1z"].
Proof.
  rewrite (view_results_only_navigates demo_finished reachable_demo_finished eq_refl eq_refl).
  reflexivity.
Defined.

(** [updateRunAnalysisButton] does not look at the mode of the button: once
    the results are ready, emptying the location field disables the action
    button, and then neither a click nor Ctrl+Enter opens the results. *)
Theorem blank_location_disables_view_results (s : State) (value : string) :
  reachable s ->
  lifecycle s = ResultsReady ->
  location_disabled (form s) = false ->
  trim value = "" ->
  let s' := step s (Input_location value) in
  lifecycle s' = ResultsReady /\
  btn_disabled (button s') = true /\
  step s' Click_runAnalysisBtn = s' /\
  step s' Key_ctrlEnter = s'.
Proof.
  intros Hreach Hready Hloc Hblank s'.
  assert (Hs' : lifecycle s' = ResultsReady /\ btn_disabled (button s') = true).
  { subst s'. unfold lifecycle in *. destruct_page s. simpl in *. subst locd.
    destruct analyzing; [discriminate|]. unfold step. exec. rewrite Hblank. simpl.
    destruct (negb (existsb cb_checked boxes)); split; assumption || reflexivity. }
  destruct Hs' as [Hr Hb]. split; [exact Hr|]. split; [exact Hb|].
  assert (Hclick : step s' Click_runAnalysisBtn = s').
  { unfold step. now rewrite dispatch_click, Hb. }
  split; [exact Hclick|].
  unfold step. now rewrite dispatch_ctrl_enter, Hb.
Qed.

Lemma blank_location_disables_view_results_witness :
  btn_disabled (button demo_finished) = false /\
  btn_disabled (button (step demo_finished (Input_location " "))) = true.
Proof.
  split; [reflexivity|].
  exact (proj1 (proj2 (blank_location_disables_view_results demo_finished " "
                         reachable_demo_finished eq_refl eq_refl eq_refl))).
Defined.

(** * Timers *)

Lemma fire_middle (s : State) (l r : list Timer) (t : Timer) :
  timers (env s) = l ++ t :: r ->
  dispatch (Timer_fire (length l)) s =
  run_timer (callback t) (with_env (set_timers (l ++ r)) s).
Proof.
  intros Ht. unfold dispatch, bind, read, update.
  rewrite Ht, list_lookup_middle by reflexivity.
  destruct_state s. simpl in Ht. subst tms.
  unfold with_env, set_timers. cbn [env timers]. now rewrite delete_middle.
Qed.

Lemma alter_last {A} (f : A -> A) (l : list A) (x : A) :
  alter f (length l) (l ++ [x]) = l ++ [f x].
Proof.
  replace (length l) with (length l + 0) by lia. now rewrite alter_app_r.
Qed.

Lemma step_fire (s s' : State) (l r : list Timer) (t : Timer) :
  timers (env s) = l ++ t :: r ->
  run_timer (callback t) (with_env (set_timers (l ++ r)) s) = Done tt s' ->
  step s (Timer_fire (length l)) = s'.
Proof.
  intros Ht Hr. unfold step. now rewrite (fire_middle _ _ _ _ Ht), Hr.
Qed.

Ltac fire l :=
  match goal with
  | |- context [step ?x (Timer_fire (length l))] =>
      lazymatch x with
      | context [step] => fail
      | _ => erewrite (step_fire x _ l _ _ eq_refl)
               by (cbn [callback]; exec; rewrite ?alter_last, ?app_nil_r, <- ?app_assoc;
                   cbn [app]; reflexivity)
      end
  end.

(** The life of a toast.  [showNotification] appends the toast, off the
    screen, and schedules two timers, of 10 ms and 4000 ms.  The first slides
    it in; the second slides it out and schedules a third, of 300 ms, which
    takes it out of the document.  When the three have fired the page is as
    it was before the notification, but for the toast that is left behind,
    detached, and no timer of the toast is pending. *)
Theorem toast_is_dismissed_by_its_timers (s : State) (message type : string) :
  let n := length (notifications (env s)) in
  let k := length (timers (env s)) in
  let s1 := final (showNotification message type s) in
  let s2 := step s1 (Timer_fire k) in
  let s3 := step s2 (Timer_fire k) in
  let s4 := step s3 (Timer_fire k) in
  notifications (env s1) =
    notifications (env s) ++ [toast message type "translateX(100%)" true] /\
  timers (env s1) =
    timers (env s) ++ [{| delay := 10; callback := T_notification_in n |};
                       {| delay := 4000; callback := T_notification_out n |}] /\
  notifications (env s2) =
    notifications (env s) ++ [toast message type "translateX(0)" true] /\
  timers (env s2) =
    timers (env s) ++ [{| delay := 4000; callback := T_notification_out n |}] /\
  notifications (env s3) =
    notifications (env s) ++ [toast message type "translateX(100%)" true] /\
  timers (env s3) =
    timers (env s) ++ [{| delay := 300; callback := T_notification_remove n |}] /\
  s4 = with_env (fun e => set_notifications
                    (notifications e ++ [toast message type "translateX(100%)" false]) e) s.
Proof.
  intros n k s1 s2 s3 s4. subst n k s1 s2 s3 s4. destruct_state s.
  match goal with
  | |- context [final ?m] =>
      let H := fresh in
      eassert (H : final m = _)
        by (exec; rewrite <- !app_assoc; cbn [app]; reflexivity);
      rewrite !H; clear H
  end.
  cbn [env timers notifications].
  split; [reflexivity|]. split; [reflexivity|].
  fire tms. cbn [env timers notifications].
  split; [reflexivity|]. split; [reflexivity|].
  fire tms. cbn [env timers notifications].
  split; [reflexivity|]. split; [reflexivity|].
  fire tms. reflexivity.
Qed.

(** * Reconnection *)

Lemma reconnect_round (s : State) :
  isAnalyzing (vars s) = true ->
  holds_live_socket s = true ->
  let s2 := reconnect_rounds 1 s in
  isAnalyzing (vars s2) = true /\
  holds_live_socket s2 = true /\
  wsUrl s2 = wsUrl s /\
  timers (env s2) = timers (env s) /\
  websocket (vars s2) = Some (length (sockets (env s))) /\
  ws_url <$> sockets (env s2) = (ws_url <$> sockets (env s)) ++ [wsUrl s].
Proof.
  intros Ha Hl. destruct_state s. cbn [reconnect_rounds].
  unfold holds_live_socket, readyState_of in Hl. cbn [vars env isAnalyzing websocket sockets] in *.
  subst analyzing. destruct ws as [h|]; [|discriminate].
  destruct (socks !! h) as [k|] eqn:Hk; [|discriminate]. cbn [fmap option_fmap option_map] in Hl.
  unfold default. cbn [from_option id timers].
  assert (Hfirst : step {|
      vars := {| isAnalyzing := true; allSelected := allSel; websocket := Some h;
                 sessionId := sid; analysisResults := res; buttonMode := mode;
                 currentProgressItem := cur |};
      form := fm; button := btn; status := stat;
      progress := {| items := its; progressContainer := cont; analysisProgressBar := bar |};
      env := {| protocol := proto; host := hst; sockets := socks; timers := tms;
                pendingFetch := nfetch; pendingJson := njson; notifications := notifs;
                calls := cls; console := cons; uncaught := unc |} |} (Ws_close h) =
    {|
      vars := {| isAnalyzing := true; allSelected := allSel; websocket := Some h;
                 sessionId := sid; analysisResults := res; buttonMode := mode;
                 currentProgressItem := cur |};
      form := fm; button := btn; status := stat;
      progress := {| items := its; progressContainer := cont; analysisProgressBar := bar |};
      env := {| protocol := proto; host := hst;
                sockets := alter (set_readyState CLOSED) h socks;
                timers := tms ++ [reconnect_timer];
                pendingFetch := nfetch; pendingJson := njson; notifications := notifs;
                calls := cls; console := cons ++ [Log "WebSocket disconnected"];
                uncaught := unc |} |}).
  { unfold step, dispatch, bind, read, readyState_of. cbn [env sockets]. rewrite Hk.
    cbn [fmap option_fmap option_map].
    destruct (readyState k); [reflexivity..|discriminate]. }
  rewrite Hfirst. clear Hfirst.
  match goal with
  | |- context [step ?x (Timer_fire (length tms))] =>
      erewrite (step_fire x _ tms [] reconnect_timer eq_refl)
        by (cbn [callback reconnect_timer]; exec; rewrite app_nil_r; reflexivity)
  end.
  unfold holds_live_socket, readyState_of, wsUrl, scheme.
  cbn [vars env isAnalyzing websocket sockets timers protocol host sessionId].
  rewrite !length_alter.
  rewrite fmap_app, (list_fmap_alter ws_url (set_readyState CLOSED) id)
    by (apply Forall_true; reflexivity).
  rewrite (list_alter_id id) by reflexivity.
  rewrite list_lookup_middle by now rewrite length_alter.
  repeat split; reflexivity.
Qed.

(** While the run is on, reconnection has no attempt cap: however many
    times the held socket closes and the timer its close scheduled fires,
    the controller is still running and holds a fresh socket that has not
    closed, no timer is left over, and every round has opened exactly one
    more socket, all at the one address of the page's session. *)
Theorem reconnection_has_no_attempt_cap (rounds : nat) (s : State) :
  isAnalyzing (vars s) = true ->
  holds_live_socket s = true ->
  let s' := reconnect_rounds rounds s in
  isAnalyzing (vars s') = true /\
  holds_live_socket s' = true /\
  timers (env s') = timers (env s) /\
  ws_url <$> sockets (env s') = (ws_url <$> sockets (env s)) ++ replicate rounds (wsUrl s) /\
  (0 < rounds -> websocket (vars s') = Some (length (sockets (env s)) + rounds - 1)).
Proof.
  revert s. induction rounds as [|n IH]; intros s Ha Hl.
  - cbn. rewrite app_nil_r. repeat split; try assumption. lia.
  - destruct (reconnect_round s Ha Hl) as (Ha2 & Hl2 & Hu & Ht & Hw & Hs).
    change (reconnect_rounds (S n) s) with (reconnect_rounds n (reconnect_rounds 1 s)).
    destruct (IH _ Ha2 Hl2) as (Ha' & Hl' & Ht' & Hs' & Hw'). cbv zeta.
    split; [exact Ha'|]. split; [exact Hl'|]. split; [congruence|].
    split.
    + rewrite Hs', Hs, Hu, <- app_assoc. reflexivity.
    + intros _. destruct n as [|n].
      * cbn [reconnect_rounds]. cbn [reconnect_rounds] in Hw. rewrite Hw. f_equal. lia.
      * rewrite Hw' by lia. f_equal.
        assert (Hlen : length (sockets (env (reconnect_rounds 1 s))) = S (length (sockets (env s)))).
        { rewrite <- (length_fmap ws_url), Hs, length_app, length_fmap. simpl. lia. }
        rewrite Hlen. lia.
Qed.

Lemma reconnection_has_no_attempt_cap_witness :
  let s' := reconnect_rounds 3 demo_running in
  isAnalyzing (vars s') = true /\
  holds_live_socket s' = true /\
  timers (env s') = timers (env demo_running) /\
  ws_url <$> sockets (env s') =
    (ws_url <$> sockets (env demo_running)) ++ replicate 3 (wsUrl demo_running) /\
  (0 < 3 -> websocket (vars s') = Some (length (sockets (env demo_running)) + 3 - 1)).
Proof.
  apply (reconnection_has_no_attempt_cap 3 demo_running); reflexivity.
Defined.

(** * Reset, page load and the session identifier *)

Lemma listeners_reset_twice (ls : list Listener) :
  let r := addEventListener L_runAnalysis (removeEventListener L_showResults ls) in
  addEventListener L_runAnalysis (removeEventListener L_showResults r) = r.
Proof.
  assert (Hidem : forall l, removeEventListener L_showResults (removeEventListener L_showResults l)
                            = removeEventListener L_showResults l).
  { intros l. induction l as [|[] l IH]; simpl; [reflexivity| |exact IH]. now rewrite IH. }
  cbv zeta. set (base := removeEventListener L_showResults ls).
  assert (Hb : removeEventListener L_showResults base = base) by apply Hidem.
  unfold addEventListener.
  destruct (existsb (listener_eqb L_runAnalysis) base) eqn:E.
  - now rewrite Hb, E.
  - assert (Hr : removeEventListener L_showResults (base ++ [L_runAnalysis])
                 = base ++ [L_runAnalysis]).
    { unfold removeEventListener. rewrite List.filter_app. simpl. f_equal. exact Hb. }
    rewrite Hr, existsb_app. simpl. now rewrite orb_true_r.
Qed.

Lemma enable_twice (boxes : list Checkbox) :
  map (set_cb_disabled false) (map (set_cb_disabled false) boxes) =
  map (set_cb_disabled false) boxes.
Proof. rewrite map_map. apply map_ext. reflexivity. Qed.

(** A second reset changes nothing: it finds no socket to close, so no
    second close call and no second console line, and the button, the form
    and the listeners are already as a reset leaves them. *)
Theorem resetForm_is_idempotent (s : State) :
  final (resetForm (final (resetForm s))) = final (resetForm s).
Proof.
  destruct_page s. destruct ws as [h|]; exec; rewrite ?existsb_checked_enabled;
    destruct (0 <? String.length (trim loc)) eqn:Hloc;
    destruct (existsb cb_checked boxes) eqn:Hsel; cbn [negb andb]; cbv iota;
    rewrite ?existsb_checked_enabled, ?Hloc, ?Hsel; cbn [negb andb]; cbv iota;
    rewrite (listeners_reset_twice bl), enable_twice; reflexivity.
Qed.

(** Page load: the controller starts Idle, with no socket, no call and no
    timer.  The action button is enabled or disabled from the location the
    markup carries, and only then is the default location written: with a
    blank location in the markup and a ticked box the button is disabled
    although the form that is displayed is complete. *)
Theorem page_load_sets_the_button_before_the_default_location
    (protocol0 host0 : string) (form0 : Form) (button0 : ActionBtn) (status0 : Status)
    (now : N) (random36 : string) :
  let s := init protocol0 host0 form0 button0 status0 now random36 in
  lifecycle s = Idle /\
  sockets (env s) = [] /\ calls (env s) = [] /\ timers (env s) = [] /\
  location_value (form s) = "Narayanganj" /\
  checkboxes (form s) = checkboxes form0 /\
  canRun s = existsb cb_checked (checkboxes form0) /\
  btn_disabled (button s) =
    negb ((0 <? String.length (trim (location_value form0)))
          && existsb cb_checked (checkboxes form0)).
Proof.
  destruct form0 as [loc locd boxes sad sal sat].
  destruct button0 as [bd bt bl br btl btd bld].
  unfold init, canRun. exec.
  destruct (length (List.filter cb_checked boxes) =? length boxes);
    destruct (0 <? String.length (trim loc));
    destruct (existsb cb_checked boxes) eqn:Hsel; cbn [negb andb]; cbv iota;
    rewrite ?Hsel; repeat split; reflexivity.
Qed.

Lemma digits_then_underscore (d1 d2 : Decimal.uint) (r1 r2 : string) :
  NilEmpty.string_of_uint d1 +:+ "_" +:+ r1 = NilEmpty.string_of_uint d2 +:+ "_" +:+ r2 ->
  d1 = d2 /\ r1 = r2.
Proof.
  revert d2. induction d1 as [|d1 IH|d1 IH|d1 IH|d1 IH|d1 IH|d1 IH|d1 IH|d1 IH|d1 IH|d1 IH];
    intros [|d2|d2|d2|d2|d2|d2|d2|d2|d2|d2] H; cbn in H; try discriminate;
    injection H as H; first [apply IH in H as [-> ->] | cbv in H; subst]; split; reflexivity.
Qed.

Lemma decimal_of_N (n : N) :
  NilZero.string_of_uint (N.to_uint n) = NilEmpty.string_of_uint (N.to_uint n).
Proof.
  destruct n as [|p]; [reflexivity|]. simpl.
  pose proof (DecimalPos.Unsigned.to_uint_nonnil p) as Hp.
  destruct (Pos.to_uint p); [contradiction|reflexivity..].
Qed.

(** The session identifier tells its inputs apart: two page loads get the
    same identifier only when both the clock reading and the random digits
    are the same. *)
Theorem session_identifiers_differ_with_clock_or_random_digits
    (now1 now2 : N) (random1 random2 : string) :
  generateSessionId now1 random1 = generateSessionId now2 random2 <->
  now1 = now2 /\ random1 = random2.
Proof.
  split; [|now intros [-> ->]].
  unfold generateSessionId. rewrite !decimal_of_N. intros H.
  injection H as H.
  apply digits_then_underscore in H as [Hd ->].
  split; [|reflexivity]. now apply DecimalN.Unsigned.to_uint_inj.
Qed.
